(** * user_management: the pydantic schemas of [app/schemas/user_schemas.py]

    A shallow embedding of the field validators ([validate_url],
    [validate_password], [validate_github_url], [validate_linkedin_url]) and
    of the three record shapes built from them ([UserCreate], [UserUpdate],
    [UserResponse]), together with the properties the specification states
    about them.

    Conventions of the embedding.
    - A Python [str] is a Rocq [string]: one [ascii] per code point, which
      covers the code points below 256.  [len] is [String.length].
    - A raw input is a [gmap string pyval]: the dict handed to the model,
      with whatever keys it has.  A key can be missing, or present with the
      value [None]; the two are different inputs.
    - A Python function that can raise returns a [res]; the exceptions that
      occur are [ValueError] (with its message) and [TypeError].
    - The schemas are pydantic 2 models ([Field(pattern=...)],
      [from_attributes]).  The part of pydantic the schemas rely on is
      embedded in the section "pydantic": validators declared [pre=True] run
      on the raw value ahead of the field's own type and constraints, a
      [ValueError] raised by a validator becomes an entry of the
      [ValidationError], any other exception leaves the validation as it is,
      the entries of all fields are collected, and keys that are no field of
      the model are ignored.
    - The collaborators that are not in this file ([UserRole], [EmailStr],
      [generate_nickname], the [UUID] and [bool] parsers) are the fields of
      the class [Collaborators]. *)

From Stdlib Require Import Ascii String List Bool NArith ZArith Lia.
From stdpp Require Import base option list strings gmap fin_maps.

Set Default Proof Using "Type".

(* ===================================================================== *)
(** * Python values *)
(* ===================================================================== *)

(** The raw values a draft can carry. *)
Inductive pyval : Type :=
  | VNone
  | VBool (b : bool)
  | VInt (z : Z)
  | VStr (s : string).

(** [bool(v)]: the truth value Python gives [v]. *)
Definition truthy (v : pyval) : bool :=
  match v with
  | VNone => false
  | VBool b => b
  | VInt z => negb (z =? 0)%Z
  | VStr s => negb (String.length s =? 0)
  end.

(** [any(vs)] *)
Definition py_any (vs : list pyval) : bool := existsb truthy vs.

Inductive exn : Type :=
  | ValueError (msg : string)
  | TypeError.

Inductive res (A : Type) : Type :=
  | Return (a : A)
  | Raise (e : exn).
Arguments Return {A} a.
Arguments Raise {A} e.

(* ===================================================================== *)
(** * Characters *)
(* ===================================================================== *)

Definition chars (s : string) : list ascii := list_ascii_of_string s.

Definition code (c : ascii) : N := N_of_ascii c.

Definition between (lo hi : N) (c : ascii) : bool :=
  ((lo <=? code c) && (code c <=? hi))%N.

Definition newline : ascii := "010"%char.

(** [c.isupper()], [c.islower()] and [c.isdigit()] for a one-character
    string, on the code points below 256: the ASCII letters and digits, and
    in the upper half the Latin-1 letters, the two ordinal indicators and the
    micro sign (lowercase), and the superscript digits. *)
Definition isupper (c : ascii) : bool :=
  between 65 90 c || between 192 214 c || between 216 222 c.

Definition islower (c : ascii) : bool :=
  between 97 122 c || between 170 170 c || between 181 181 c
  || between 186 186 c || between 223 246 c || between 248 255 c.

Definition isdigit (c : ascii) : bool :=
  between 48 57 c || between 178 179 c || between 185 185 c.

(** [\s] of Python's [re] on a [str] pattern. *)
Definition isspace (c : ascii) : bool :=
  between 9 13 c || between 28 32 c || between 133 133 c || between 160 160 c.

(** [\w] of the pattern constraint of a pydantic field: letters, decimal
    digits and the underscore. *)
Definition isword (c : ascii) : bool :=
  between 48 57 c || between 65 90 c || between 95 95 c || between 97 122 c
  || between 170 170 c || between 181 181 c || between 186 186 c
  || between 192 214 c || between 216 246 c || between 248 255 c.

(* ===================================================================== *)
(** * Regular expressions *)
(* ===================================================================== *)

(** What stands between the brackets of a character set. *)
Inductive item : Type :=
  | One (c : ascii)            (* a literal character *)
  | Range (lo hi : ascii)      (* lo-hi *)
  | Space                      (* \s *)
  | Word.                      (* \w *)

Definition in_item (i : item) (c : ascii) : bool :=
  match i with
  | One d => Ascii.eqb d c
  | Range lo hi => between (code lo) (code hi) c
  | Space => isspace c
  | Word => isword c
  end.

Definition in_set (items : list item) (c : ascii) : bool :=
  existsb (fun i => in_item i c) items.

Inductive regex : Type :=
  | Empty                          (* matches nothing *)
  | Eps                            (* matches the empty string *)
  | Class (p : ascii -> bool)      (* one character satisfying p *)
  | Seq (r1 r2 : regex)
  | Alt (r1 r2 : regex)
  | Star (r : regex).

Definition Chr (c : ascii) : regex := Class (Ascii.eqb c).
Definition Set_ (items : list item) : regex := Class (in_set items).
Definition NotSet (items : list item) : regex :=
  Class (fun c => negb (in_set items c)).
(** [.] without DOTALL: any character but a newline. *)
Definition Dot : regex := Class (fun c => negb (Ascii.eqb newline c)).
Definition Opt (r : regex) : regex := Alt r Eps.
Definition Plus (r : regex) : regex := Seq r (Star r).

Fixpoint Lit (s : string) : regex :=
  match s with
  | EmptyString => Eps
  | String c s' => Seq (Chr c) (Lit s')
  end.

Fixpoint Cat (rs : list regex) : regex :=
  match rs with
  | [] => Eps
  | r :: rs' => Seq r (Cat rs')
  end.

(** Matching by derivatives. *)
Fixpoint nullable (r : regex) : bool :=
  match r with
  | Empty => false
  | Eps => true
  | Class _ => false
  | Seq r1 r2 => nullable r1 && nullable r2
  | Alt r1 r2 => nullable r1 || nullable r2
  | Star _ => true
  end.

Fixpoint deriv (c : ascii) (r : regex) : regex :=
  match r with
  | Empty => Empty
  | Eps => Empty
  | Class p => if p c then Eps else Empty
  | Seq r1 r2 =>
      if nullable r1 then Alt (Seq (deriv c r1) r2) (deriv c r2)
      else Seq (deriv c r1) r2
  | Alt r1 r2 => Alt (deriv c r1) (deriv c r2)
  | Star r1 => Seq (deriv c r1) (Star r1)
  end.

Fixpoint accepts (r : regex) (w : list ascii) : bool :=
  match w with
  | [] => nullable r
  | c :: w' => accepts (deriv c r) w'
  end.

(** [re.match(p, s) is not None] for a Python pattern [p] of the form
    [^body$].  [re.match] looks for a match at the start of [s]; the closing
    [$] of Python holds at the end of [s] and also just before a newline that
    is the last character of [s]. *)
Definition re_match (body : regex) (s : string) : bool :=
  accepts (Seq body (Opt (Chr newline))) (chars s).

(** The [pattern] constraint of a pydantic [str] field, for a pattern of the
    form [^body$]: the whole string has to match [body]. *)
Definition pattern_match (body : regex) (s : string) : bool :=
  accepts body (chars s).

(** The language of a regular expression. *)
Inductive matches : regex -> list ascii -> Prop :=
  | m_eps : matches Eps []
  | m_class p c : p c = true -> matches (Class p) [c]
  | m_seq r1 r2 w1 w2 :
      matches r1 w1 -> matches r2 w2 -> matches (Seq r1 r2) (w1 ++ w2)
  | m_alt_l r1 r2 w : matches r1 w -> matches (Alt r1 r2) w
  | m_alt_r r1 r2 w : matches r2 w -> matches (Alt r1 r2) w
  | m_star_nil r : matches (Star r) []
  | m_star_app r w1 w2 :
      matches r w1 -> matches (Star r) w2 -> matches (Star r) (w1 ++ w2).

(* ===================================================================== *)
(** * The field validators *)
(* ===================================================================== *)

(** [r'^https?:\/\/[^\s/$.?#].[^\s]*$'] *)
Definition url_regex : regex :=
  Cat [Lit "http"; Opt (Chr "s"); Lit "://";
       NotSet [Space; One "/"; One "$"; One "."; One "?"; One "#"];
       Dot; Star (NotSet [Space])].

Definition validate_url (url : pyval) : res pyval :=
  match url with
  | VNone => Return url
  | VStr s =>
      if negb (re_match url_regex s) then
        Raise (ValueError "Invalid URL format")
      else Return url
  | _ => Raise TypeError        (* re.match on a value that is no string *)
  end.

Definition validate_password (password : pyval) : res pyval :=
  match password with
  | VStr s =>
      if String.length s <? 8 then
        Raise (ValueError "Password must be at least 8 characters.")
      else if negb (existsb isupper (chars s)) then
        Raise (ValueError "Password must contain at least one uppercase letter.")
      else if negb (existsb islower (chars s)) then
        Raise (ValueError "Password must contain at least one lowercase letter.")
      else if negb (existsb isdigit (chars s)) then
        Raise (ValueError "Password must contain at least one digit.")
      else Return password
  | _ => Raise TypeError        (* len() of None, of a bool or of an int *)
  end.

(** [[a-zA-Z0-9-_]]: after the range [0-9] the hyphen is a literal. *)
Definition github_username_set : list item :=
  [Range "a" "z"; Range "A" "Z"; Range "0" "9"; One "-"; One "_"].

(** [r'^https?:\/\/(?:www\.)?github\.com\/[a-zA-Z0-9-_]+\/?$'] *)
Definition github_url_pattern : regex :=
  Cat [Lit "http"; Opt (Chr "s"); Lit "://"; Opt (Lit "www.");
       Lit "github.com/"; Plus (Set_ github_username_set); Opt (Chr "/")].

Definition validate_github_url (url : pyval) : res pyval :=
  match url with
  | VNone => Return url
  | VStr s =>
      if negb (re_match github_url_pattern s) then
        Raise (ValueError "Invalid GitHub profile URL. The correct format is: https://github.com/<username>.")
      else Return url
  | _ => Raise TypeError
  end.

(** [[a-zA-Z0-9-_%]] *)
Definition linkedin_username_set : list item :=
  [Range "a" "z"; Range "A" "Z"; Range "0" "9"; One "-"; One "_"; One "%"].

(** [r'^https?:\/\/(?:www\.)?linkedin\.com\/in\/[a-zA-Z0-9-_%]+\/?$'] *)
Definition linkedin_url_pattern : regex :=
  Cat [Lit "http"; Opt (Chr "s"); Lit "://"; Opt (Lit "www.");
       Lit "linkedin.com/in/"; Plus (Set_ linkedin_username_set);
       Opt (Chr "/")].

Definition validate_linkedin_url (url : pyval) : res pyval :=
  match url with
  | VNone => Return url
  | VStr s =>
      if negb (re_match linkedin_url_pattern s) then
        Raise (ValueError "Invalid LinkedIn profile URL. The correct format is: https://www.linkedin.com/in/<username>.")
      else Return url
  | _ => Raise TypeError
  end.

(* ===================================================================== *)
(** * pydantic *)
(* ===================================================================== *)

(** The kinds of entries a [ValidationError] carries here.  An entry made
    from a [ValueError] keeps the message the validator raised it with. *)
Inductive err_type : Type :=
  | missing                       (* a required field has no key *)
  | string_type                   (* the value is no string *)
  | string_too_short (min_length : nat)
  | string_pattern_mismatch
  | value_error (msg : string)    (* a validator raised ValueError(msg) *)
  | email_invalid
  | enum_invalid
  | uuid_invalid
  | bool_invalid.

(** One entry: [loc] is the path of the field, [[]] for the model itself. *)
Record ErrorDetails : Type := { loc : list string; type : err_type }.

Inductive outcome (A : Type) : Type :=
  | Valid (a : A)
  | ValidationError (errors : list ErrorDetails)
  | Uncaught (e : exn).           (* an exception pydantic does not collect *)
Arguments Valid {A} a.
Arguments ValidationError {A} errors.
Arguments Uncaught {A} e.

Definition field_error {A} (name : string) (t : err_type) : outcome A :=
  ValidationError [{| loc := [name]; type := t |}].

(** The fields of a model are validated in order.  The entries of the fields
    that fail are collected; an uncaught exception ends the validation. *)
Definition ap {A B} (f : outcome (A -> B)) (x : outcome A) : outcome B :=
  match f, x with
  | Uncaught e, _ => Uncaught e
  | _, Uncaught e => Uncaught e
  | Valid g, Valid a => Valid (g a)
  | Valid _, ValidationError es => ValidationError es
  | ValidationError es, Valid _ => ValidationError es
  | ValidationError es1, ValidationError es2 => ValidationError (es1 ++ es2)
  end.
Infix "<*>" := ap (at level 61, left associativity).

(** The entries of an outcome, and whether an exception got through. *)
Definition errors_of {A} (o : outcome A) : list ErrorDetails :=
  match o with
  | ValidationError es => es
  | _ => []
  end.

Definition is_uncaught {A} (o : outcome A) : bool :=
  match o with
  | Uncaught _ => true
  | _ => false
  end.

Definition is_valid {A} (o : outcome A) : bool :=
  match o with
  | Valid _ => true
  | _ => false
  end.

(** A validator attached with [pre=True]: it gets the raw value, and the
    field's own schema validates what it returns. *)
Definition before {A} (f : pyval -> res pyval)
    (schema : string -> pyval -> outcome A) (name : string) (v : pyval)
    : outcome A :=
  match f v with
  | Return v' => schema name v'
  | Raise (ValueError msg) => field_error name (value_error msg)
  | Raise e => Uncaught e
  end.

(** [str] *)
Definition str_schema (name : string) (v : pyval) : outcome string :=
  match v with
  | VStr s => Valid s
  | _ => field_error name string_type
  end.

(** [str] with [min_length] and [pattern]: the length is checked first. *)
Definition constrained_str (min_length : nat) (pattern : regex)
    (name : string) (v : pyval) : outcome string :=
  match v with
  | VStr s =>
      if String.length s <? min_length then
        field_error name (string_too_short min_length)
      else if negb (pattern_match pattern s) then
        field_error name string_pattern_mismatch
      else Valid s
  | _ => field_error name string_type
  end.

(** [Optional[T]] *)
Definition optional {A} (schema : string -> pyval -> outcome A)
    (name : string) (v : pyval) : outcome (option A) :=
  match v with
  | VNone => Valid None
  | _ => Valid Some <*> schema name v
  end.

(** A field declared with [...]: the key has to be there. *)
Definition required {A} (name : string)
    (schema : string -> pyval -> outcome A) (values : gmap string pyval)
    : outcome A :=
  match values !! name with
  | Some v => schema name v
  | None => field_error name missing
  end.

(** A field with a default: the default is taken as it is when the key is
    not there. *)
Definition defaulted {A} (name : string) (d : A)
    (schema : string -> pyval -> outcome A) (values : gmap string pyval)
    : outcome A :=
  match values !! name with
  | Some v => schema name v
  | None => Valid d
  end.

(** [r'^[\w-]+$'] *)
Definition nickname_pattern : regex := Plus (Set_ [Word; One "-"]).

(** [Optional[str] = Field(None, min_length=3, pattern=r'^[\w-]+$')] *)
Definition nickname_schema : string -> pyval -> outcome (option string) :=
  optional (constrained_str 3 nickname_pattern).

Definition opt_str (o : option string) : pyval :=
  match o with
  | Some s => VStr s
  | None => VNone
  end.

(* ===================================================================== *)
(** * The collaborators *)
(* ===================================================================== *)

(** What the schemas import and this file does not define. *)
Class Collaborators : Type := {
  (** [app.models.user_model.UserRole], an enumeration *)
  UserRole : Type;
  (** the validation of a raw value as a [UserRole] *)
  UserRole_validate : pyval -> option UserRole;
  (** the raw value a member is written back as *)
  UserRole_raw : UserRole -> pyval;
  (** [EmailStr]: the normalized address, or nothing for a string that is no
      address *)
  EmailStr_validate : string -> option string;
  (** [uuid.UUID] and its validation *)
  UUID : Type;
  UUID_validate : pyval -> option UUID;
  (** the validation of a raw value as a [bool] *)
  bool_validate : pyval -> option bool;
  (** [app.utils.nickname_gen.generate_nickname]: what the call number [n]
      of a run returns *)
  generate_nickname : nat -> string;
}.

Section Schemas.
Context `{env : Collaborators}.

Definition email_schema (name : string) (v : pyval) : outcome string :=
  match v with
  | VStr s =>
      match EmailStr_validate s with
      | Some e => Valid e
      | None => field_error name email_invalid
      end
  | _ => field_error name string_type
  end.

Definition role_schema (name : string) (v : pyval) : outcome UserRole :=
  match UserRole_validate v with
  | Some r => Valid r
  | None => field_error name enum_invalid
  end.

Definition uuid_schema (name : string) (v : pyval) : outcome UUID :=
  match UUID_validate v with
  | Some u => Valid u
  | None => field_error name uuid_invalid
  end.

Definition bool_schema (name : string) (v : pyval) : outcome bool :=
  match bool_validate v with
  | Some b => Valid b
  | None => field_error name bool_invalid
  end.

(** ** class UserCreate(UserBase) *)

Record UserCreate : Type := {
  c_email : string;
  c_nickname : option string;
  c_first_name : option string;
  c_last_name : option string;
  c_bio : option string;
  c_profile_picture_url : option string;
  c_linkedin_profile_url : option string;
  c_github_profile_url : option string;
  c_role : UserRole;
  c_password : string;
}.

(** [value or generate_nickname()]; the number counts the calls of the
    generator. *)
Definition set_or_generate_nickname (value : pyval) (calls : nat)
    : pyval * nat :=
  if truthy value then (value, calls)
  else (VStr (generate_nickname calls), S calls).

(** The nickname of a [UserCreate]: the validator is declared with
    [pre=True, always=True], so it also runs, on the default [None], when
    the key is not there. *)
Definition UserCreate_nickname (values : gmap string pyval) (calls : nat)
    : outcome (option string) * nat :=
  let '(value, calls') :=
    set_or_generate_nickname (default VNone (values !! "nickname")) calls in
  (nickname_schema "nickname" value, calls').

Definition UserCreate_validate (values : gmap string pyval) (calls : nat)
    : outcome UserCreate * nat :=
  let '(nickname, calls') := UserCreate_nickname values calls in
  (Valid Build_UserCreate
     <*> required "email" email_schema values
     <*> nickname
     <*> defaulted "first_name" None (optional str_schema) values
     <*> defaulted "last_name" None (optional str_schema) values
     <*> defaulted "bio" None (optional str_schema) values
     <*> defaulted "profile_picture_url" None
           (before validate_url (optional str_schema)) values
     <*> defaulted "linkedin_profile_url" None
           (before validate_linkedin_url (optional str_schema)) values
     <*> defaulted "github_profile_url" None
           (before validate_github_url (optional str_schema)) values
     <*> required "role" role_schema values
     <*> required "password" (before validate_password str_schema) values,
   calls').

(** The fields of a validated record, as a raw input. *)
Definition UserCreate_dump (u : UserCreate) : gmap string pyval :=
  list_to_map
    [("email", VStr (c_email u));
     ("nickname", opt_str (c_nickname u));
     ("first_name", opt_str (c_first_name u));
     ("last_name", opt_str (c_last_name u));
     ("bio", opt_str (c_bio u));
     ("profile_picture_url", opt_str (c_profile_picture_url u));
     ("linkedin_profile_url", opt_str (c_linkedin_profile_url u));
     ("github_profile_url", opt_str (c_github_profile_url u));
     ("role", UserRole_raw (c_role u));
     ("password", VStr (c_password u))].

(** ** class UserUpdate(UserBase) *)

Record UserUpdate : Type := {
  u_email : option string;
  u_nickname : option string;
  u_first_name : option string;
  u_last_name : option string;
  u_bio : option string;
  u_profile_picture_url : option string;
  u_linkedin_profile_url : option string;
  u_github_profile_url : option string;
  u_role : option string;
}.

Definition UserUpdate_fields : list string :=
  ["email"; "nickname"; "first_name"; "last_name"; "bio";
   "profile_picture_url"; "linkedin_profile_url"; "github_profile_url";
   "role"].

(** [values.values()] *)
Definition dict_values (values : gmap string pyval) : list pyval :=
  (map_to_list values).*2.

Definition check_at_least_one_value (values : gmap string pyval)
    : res (gmap string pyval) :=
  if negb (py_any (dict_values values)) then
    Raise (ValueError "At least one field must be provided for update")
  else Return values.

Definition UserUpdate_fields_validate (values : gmap string pyval)
    : outcome UserUpdate :=
  Valid Build_UserUpdate
    <*> defaulted "email" None (optional email_schema) values
    <*> defaulted "nickname" None nickname_schema values
    <*> defaulted "first_name" None (optional str_schema) values
    <*> defaulted "last_name" None (optional str_schema) values
    <*> defaulted "bio" None (optional str_schema) values
    <*> defaulted "profile_picture_url" None
          (before validate_url (optional str_schema)) values
    <*> defaulted "linkedin_profile_url" None
          (before validate_linkedin_url (optional str_schema)) values
    <*> defaulted "github_profile_url" None
          (before validate_github_url (optional str_schema)) values
    <*> defaulted "role" None (optional str_schema) values.

(** The [root_validator(pre=True)] gets the raw input and runs ahead of the
    fields. *)
Definition UserUpdate_validate (values : gmap string pyval)
    : outcome UserUpdate :=
  match check_at_least_one_value values with
  | Return values' => UserUpdate_fields_validate values'
  | Raise (ValueError msg) =>
      ValidationError [{| loc := []; type := value_error msg |}]
  | Raise e => Uncaught e
  end.

(** ** class UserResponse(UserBase) *)

Record UserResponse : Type := {
  r_email : string;
  r_nickname : option string;
  r_first_name : option string;
  r_last_name : option string;
  r_bio : option string;
  r_profile_picture_url : option string;
  r_linkedin_profile_url : option string;
  r_github_profile_url : option string;
  r_role : UserRole;
  r_id : UUID;
  r_is_professional : option bool;
}.

Definition UserResponse_fields : list string :=
  ["email"; "nickname"; "first_name"; "last_name"; "bio";
   "profile_picture_url"; "linkedin_profile_url"; "github_profile_url";
   "role"; "id"; "is_professional"].

Definition UserResponse_validate (values : gmap string pyval)
    : outcome UserResponse :=
  Valid Build_UserResponse
    <*> required "email" email_schema values
    <*> defaulted "nickname" None nickname_schema values
    <*> defaulted "first_name" None (optional str_schema) values
    <*> defaulted "last_name" None (optional str_schema) values
    <*> defaulted "bio" None (optional str_schema) values
    <*> defaulted "profile_picture_url" None
          (before validate_url (optional str_schema)) values
    <*> defaulted "linkedin_profile_url" None
          (before validate_linkedin_url (optional str_schema)) values
    <*> defaulted "github_profile_url" None
          (before validate_github_url (optional str_schema)) values
    <*> required "role" role_schema values
    <*> required "id" uuid_schema values
    <*> defaulted "is_professional" (Some false) (optional bool_schema) values.

End Schemas.

(** ** class LoginRequest(BaseModel) *)

Record LoginRequest : Type := {
  l_email : string;
  l_password : string;
}.

Definition LoginRequest_validate (values : gmap string pyval)
    : outcome LoginRequest :=
  Valid Build_LoginRequest
    <*> required "email" str_schema values
    <*> required "password" str_schema values.

(** ** class ErrorResponse(BaseModel) *)

Record ErrorResponse : Type := {
  e_error : string;
  e_details : option string;
}.

Definition ErrorResponse_validate (values : gmap string pyval)
    : outcome ErrorResponse :=
  Valid Build_ErrorResponse
    <*> required "error" str_schema values
    <*> defaulted "details" None (optional str_schema) values.

(** The names of the fields of a UserCreate, in their order. *)
Definition UserCreate_fields : list string :=
  ["email"; "nickname"; "first_name"; "last_name"; "bio";
   "profile_picture_url"; "linkedin_profile_url"; "github_profile_url";
   "role"; "password"].

(** The fields of a validated update, as a raw input. *)
Definition UserUpdate_dump (u : UserUpdate) : gmap string pyval :=
  list_to_map
    [("email", opt_str (u_email u));
     ("nickname", opt_str (u_nickname u));
     ("first_name", opt_str (u_first_name u));
     ("last_name", opt_str (u_last_name u));
     ("bio", opt_str (u_bio u));
     ("profile_picture_url", opt_str (u_profile_picture_url u));
     ("linkedin_profile_url", opt_str (u_linkedin_profile_url u));
     ("github_profile_url", opt_str (u_github_profile_url u));
     ("role", opt_str (u_role u))].

(* ===================================================================== *)
(** * Stand-ins for the collaborators *)
(* ===================================================================== *)

(** Modelled from the spec: the members of [UserRole], which is defined in
    [app/models/user_model.py]; the specification names them as ANONYMOUS,
    AUTHENTICATED, MODERATOR and ADMIN.  A raw value is a member when it is
    the string of its name. *)
Inductive SpecRole : Type := ANONYMOUS | AUTHENTICATED | MODERATOR | ADMIN.

Definition SpecRole_name (r : SpecRole) : string :=
  match r with
  | ANONYMOUS => "ANONYMOUS"
  | AUTHENTICATED => "AUTHENTICATED"
  | MODERATOR => "MODERATOR"
  | ADMIN => "ADMIN"
  end.

Definition SpecRole_validate (v : pyval) : option SpecRole :=
  match v with
  | VStr s =>
      find (fun r => String.eqb (SpecRole_name r) s)
        [ANONYMOUS; AUTHENTICATED; MODERATOR; ADMIN]
  | _ => None
  end.

(** Modelled from the spec: the check of [EmailStr], which pydantic leaves to
    the email-validator package; the specification asks for the form
    local@domain.  Here: one [@] with something on both sides, and the
    address is kept as it is. *)
Definition SpecEmail_validate (s : string) : option string :=
  match String.index 0 "@" s with
  | Some i =>
      let domain := String.substring (S i) (String.length s - S i) s in
      if (0 <? i) && (0 <? String.length domain)
         && negb (existsb (Ascii.eqb "@") (chars domain))
      then Some s else None
  | None => None
  end.

(** A stand-in for the [UUID] parser: the 36 characters of the usual form. *)
Definition SpecUUID_validate (v : pyval) : option string :=
  match v with
  | VStr s => if String.length s =? 36 then Some s else None
  | _ => None
  end.

(** A stand-in for the [bool] parser. *)
Definition SpecBool_validate (v : pyval) : option bool :=
  match v with
  | VBool b => Some b
  | _ => None
  end.

(** The collaborators with a generator that returns the given names, one per
    call. *)
Definition spec_env (names : nat -> string) : Collaborators :=
  {| UserRole := SpecRole;
     UserRole_validate := SpecRole_validate;
     UserRole_raw := fun r => VStr (SpecRole_name r);
     EmailStr_validate := SpecEmail_validate;
     UUID := string;
     UUID_validate := SpecUUID_validate;
     bool_validate := SpecBool_validate;
     generate_nickname := names |}.

Definition env_ok : Collaborators := spec_env (fun _ => "clever_panda_42").
Definition env_short : Collaborators := spec_env (fun _ => "ab").

Definition draft (kvs : list (string * pyval)) : gmap string pyval :=
  list_to_map kvs.

(** Sample drafts and the records they validate to. *)
Definition sample_create : gmap string pyval :=
  draft [("email", VStr "john.doe@example.com"); ("first_name", VStr "John");
         ("github_profile_url", VStr "https://github.com/johndoe");
         ("role", VStr "AUTHENTICATED"); ("password", VStr "Secure*1234")].

Definition sample_create_record : @UserCreate env_ok :=
  @Build_UserCreate env_ok
    "john.doe@example.com" (Some "clever_panda_42") (Some "John")
    None None None None (Some "https://github.com/johndoe")
    AUTHENTICATED "Secure*1234".

Definition sample_update : gmap string pyval :=
  draft [("bio", VStr "Hello"); ("nickname", VStr "john_doe123");
         ("github_profile_url", VStr "https://github.com/johndoe")].

Definition sample_update_record : UserUpdate :=
  {| u_email := None; u_nickname := Some "john_doe123"; u_first_name := None;
     u_last_name := None; u_bio := Some "Hello";
     u_profile_picture_url := None; u_linkedin_profile_url := None;
     u_github_profile_url := Some "https://github.com/johndoe";
     u_role := None |}.

Definition sample_response : gmap string pyval :=
  draft [("id", VStr "123e4567-e89b-12d3-a456-426614174000");
         ("email", VStr "john.doe@example.com");
         ("role", VStr "AUTHENTICATED")].

Definition sample_response_record : @UserResponse env_ok :=
  @Build_UserResponse env_ok
    "john.doe@example.com" None None None None None None None
    AUTHENTICATED "123e4567-e89b-12d3-a456-426614174000" (Some false).

(* ===================================================================== *)
(** * The properties in the words of the specification *)
(* ===================================================================== *)

(** "contains at least one ..." *)
Definition contains (p : ascii -> bool) (s : string) : Prop :=
  exists c, In c (chars s) /\ p c = true.

(** The characters of [[A-Za-z0-9_-]] and of [[A-Za-z0-9_%-]]. *)
Definition github_username_char (c : ascii) : bool :=
  between 65 90 c || between 97 122 c || between 48 57 c
  || Ascii.eqb c "_" || Ascii.eqb c "-".

Definition linkedin_username_char (c : ascii) : bool :=
  github_username_char c || Ascii.eqb c "%".

(** A profile URL: http or https, an optional www., the host and the path
    prefix, one path segment made of the allowed characters, an optional
    slash; and the newline that the [$] of Python lets pass at the end. *)
Definition profile_url_shape (prefix : string) (allowed : ascii -> bool)
    (url : string) : Prop :=
  exists s www user slash nl : string,
    url = "http" +:+ s +:+ "://" +:+ www +:+ prefix +:+ user +:+ slash +:+ nl
    /\ (s = "" \/ s = "s")
    /\ (www = "" \/ www = "www.")
    /\ user <> "" /\ Forall (fun c => allowed c = true) (chars user)
    /\ (slash = "" \/ slash = "/")
    /\ (nl = "" \/ nl = String newline "").

(** A profile URL read to the end of the string: the same form without the
    closing newline. *)
Definition profile_url_strict (prefix : string) (allowed : ascii -> bool)
    (url : string) : Prop :=
  exists s www user slash : string,
    url = "http" +:+ s +:+ "://" +:+ www +:+ prefix +:+ user +:+ slash
    /\ (s = "" \/ s = "s")
    /\ (www = "" \/ www = "www.")
    /\ user <> "" /\ Forall (fun c => allowed c = true) (chars user)
    /\ (slash = "" \/ slash = "/").

(** What [url_regex] asks of the first character after the scheme. *)
Definition host_start_char (c : ascii) : Prop :=
  isspace c = false /\ ~ In c ["/"; "$"; "."; "?"; "#"]%char.

(** A URL as [validate_url] takes it: http or https, [://], a first
    character that is no whitespace and none of [/ $ . ? #], a second
    character that is no newline, then characters that are no whitespace;
    and the newline that the [$] of Python lets pass at the end. *)
Definition url_shape (url : string) : Prop :=
  exists (s : string) (a b : ascii) (rest nl : string),
    url = "http" +:+ s +:+ "://" +:+ String a (String b rest) +:+ nl
    /\ (s = "" \/ s = "s")
    /\ host_start_char a
    /\ b <> newline
    /\ Forall (fun c => isspace c = false) (chars rest)
    /\ (nl = "" \/ nl = String newline "").

(** An optional string as it was supplied: what a raw value has to be for
    a field to come out as [o]. *)
Definition supplied (values : gmap string pyval) (name : string)
    (o : option string) : Prop :=
  default VNone (values !! name) = opt_str o.

(** The constraints of the nickname field. *)
Definition nickname_ok (s : string) : Prop :=
  3 <= String.length s
  /\ Forall (fun c => isword c = true \/ c = "-"%char) (chars s).

(** The entries of a field are located at the field, and a field that is
    refused has an entry. *)
Definition located {A} (name : string) (o : outcome A) : Prop :=
  Forall (fun e => loc e = [name]) (errors_of o)
  /\ (is_valid o = false -> is_uncaught o = false -> errors_of o <> []).

(* ===================================================================== *)
(** * Regular expressions: the matcher decides the language *)
(* ===================================================================== *)

Lemma matches_nil_nullable r : matches r [] -> nullable r = true.
Proof.
  intros H. remember [] as w eqn:Hw.
  induction H; simpl; try done.
  - apply app_nil in Hw as [-> ->]. by rewrite IHmatches1, IHmatches2.
  - by rewrite IHmatches.
  - rewrite IHmatches by done. apply orb_true_r.
Qed.

Lemma nullable_matches_nil r : nullable r = true -> matches r [].
Proof.
  induction r; simpl; intros H; try done.
  - constructor.
  - apply andb_true_iff in H as [H1 H2].
    change (@nil ascii) with (@nil ascii ++ []). constructor; auto.
  - apply orb_true_iff in H as [H|H]; [apply m_alt_l | apply m_alt_r]; auto.
  - constructor.
Qed.

Lemma matches_star_cons r c w :
  matches (Star r) (c :: w) ->
  exists w1 w2, w = w1 ++ w2 /\ matches r (c :: w1) /\ matches (Star r) w2.
Proof.
  intros H. remember (Star r) as r' eqn:Hr. remember (c :: w) as cw eqn:Hcw.
  revert w Hcw.
  induction H; intros w' Hcw; try discriminate.
  injection Hr as ->.
  destruct w1 as [|a w1]; simpl in Hcw.
  - apply IHmatches2; done.
  - simplify_eq. eauto.
Qed.

Lemma matches_Seq r1 r2 w :
  matches (Seq r1 r2) w <->
  exists w1 w2, w = w1 ++ w2 /\ matches r1 w1 /\ matches r2 w2.
Proof.
  split.
  - inversion 1; subst; eauto.
  - intros (w1 & w2 & -> & H1 & H2). by constructor.
Qed.

Lemma matches_Alt r1 r2 w :
  matches (Alt r1 r2) w <-> matches r1 w \/ matches r2 w.
Proof.
  split.
  - inversion 1; subst; auto.
  - intros [H|H]; [by apply m_alt_l | by apply m_alt_r].
Qed.

Lemma matches_Eps w : matches Eps w <-> w = [].
Proof. split; [by inversion 1 | intros ->; constructor]. Qed.

Lemma matches_Empty w : ~ matches Empty w.
Proof. inversion 1. Qed.

Lemma matches_Class p w :
  matches (Class p) w <-> exists c, w = [c] /\ p c = true.
Proof.
  split.
  - inversion 1; subst; eauto.
  - intros (c & -> & Hc). by constructor.
Qed.

Lemma matches_deriv c r w : matches (deriv c r) w <-> matches r (c :: w).
Proof.
  revert w. induction r as [| |p|r1 IH1 r2 IH2|r1 IH1 r2 IH2|r IH]; intros w; simpl.
  - split; inversion 1.
  - split; inversion 1.
  - rewrite matches_Class. destruct (p c) eqn:Hp.
    + rewrite matches_Eps. split.
      * intros ->. eauto.
      * intros (d & Hd & _). by simplify_eq.
    + split; [by intros ?%matches_Empty |].
      intros (d & Hd & Hpd). simplify_eq. congruence.
  - assert (Hseq : matches (Seq (deriv c r1) r2) w <->
      exists w1 w2, w = w1 ++ w2 /\ matches r1 (c :: w1) /\ matches r2 w2).
    { rewrite matches_Seq. split; intros (w1 & w2 & -> & H1 & H2);
        exists w1, w2; (split; [done|]); (split; [by apply IH1 | done]). }
    rewrite (matches_Seq r1 r2). split.
    + intros H.
      assert (Hcase : matches (Seq (deriv c r1) r2) w \/
                      (nullable r1 = true /\ matches (deriv c r2) w)).
      { destruct (nullable r1); [|by left].
        apply matches_Alt in H as [H|H]; [by left | by right]. }
      destruct Hcase as [H'|[Hn H']].
      * apply Hseq in H' as (w1 & w2 & -> & H1 & H2).
        exists (c :: w1), w2. done.
      * exists [], (c :: w). split; [done|].
        split; [by apply nullable_matches_nil | by apply IH2].
    + intros (w1 & w2 & Heq & H1 & H2).
      destruct w1 as [|a w1]; simpl in Heq.
      * subst w2. rewrite (matches_nil_nullable _ H1).
        apply m_alt_r. by apply IH2.
      * injection Heq as Hc Hw. subst a w.
        assert (matches (Seq (deriv c r1) r2) (w1 ++ w2)).
        { apply Hseq. eauto. }
        destruct (nullable r1); [by apply m_alt_l | done].
  - rewrite !matches_Alt, IH1, IH2. done.
  - rewrite matches_Seq. split.
    + intros (w1 & w2 & -> & H1 & H2).
      change (matches (Star r) ((c :: w1) ++ w2)).
      constructor; [by apply IH | done].
    + intros H. apply matches_star_cons in H as (w1 & w2 & -> & H1 & H2).
      exists w1, w2. split; [done|]. split; [by apply IH | done].
Qed.

Lemma accepts_matches r w : accepts r w = true <-> matches r w.
Proof.
  revert r. induction w as [|c w IH]; intros r; simpl.
  - split; [apply nullable_matches_nil | apply matches_nil_nullable].
  - rewrite IH. apply matches_deriv.
Qed.

(** ** Strings and their characters *)

Lemma chars_app (a b : string) : chars (a +:+ b) = chars a ++ chars b.
Proof. induction a as [|c a IH]; simpl; [done | by rewrite <- IH]. Qed.

Lemma chars_of_list (l : list ascii) : chars (string_of_list_ascii l) = l.
Proof. apply list_ascii_of_string_of_list_ascii. Qed.

Lemma chars_inj (a b : string) : chars a = chars b -> a = b.
Proof.
  intros H. rewrite <- (string_of_list_ascii_of_string a).
  rewrite <- (string_of_list_ascii_of_string b). unfold chars in H. by rewrite H.
Qed.

Lemma chars_length (s : string) : length (chars s) = String.length s.
Proof. induction s as [|c s IH]; simpl; [done | by rewrite IH]. Qed.

Lemma chars_nil (s : string) : chars s = [] <-> s = "".
Proof. destruct s; simpl; split; congruence. Qed.

(** ** The language of the derived forms *)

Lemma matches_Chr c w : matches (Chr c) w <-> w = [c].
Proof.
  unfold Chr. rewrite matches_Class. split.
  - intros (d & -> & Hd). apply Ascii.eqb_eq in Hd. by subst.
  - intros ->. exists c. split; [done | apply Ascii.eqb_refl].
Qed.

Lemma matches_Lit s w : matches (Lit s) w <-> w = chars s.
Proof.
  revert w. induction s as [|c s IH]; intros w; simpl.
  - apply matches_Eps.
  - rewrite matches_Seq. split.
    + intros (w1 & w2 & -> & H1 & H2).
      apply matches_Chr in H1 as ->. apply IH in H2 as ->. done.
    + intros ->. exists [c], (chars s). split; [done|].
      split; [by apply matches_Chr | by apply IH].
Qed.

Lemma matches_Opt r w : matches (Opt r) w <-> matches r w \/ w = [].
Proof. unfold Opt. by rewrite matches_Alt, matches_Eps. Qed.

Lemma matches_Star_Class p w :
  matches (Star (Class p)) w <-> Forall (fun c => p c = true) w.
Proof.
  split.
  - revert p. induction w as [|c w IH]; intros p H; [constructor|].
    apply matches_star_cons in H as (w1 & w2 & -> & H1 & H2).
    apply matches_Class in H1 as (d & Hd & Hp). simplify_eq.
    constructor; [done | by apply IH].
  - induction 1 as [|c w Hc _ IH]; [constructor|].
    change (c :: w) with ([c] ++ w). constructor; [by constructor | done].
Qed.

Lemma matches_Plus_Class p w :
  matches (Plus (Class p)) w <-> w <> [] /\ Forall (fun c => p c = true) w.
Proof.
  unfold Plus. rewrite matches_Seq. split.
  - intros (w1 & w2 & -> & H1 & H2).
    apply matches_Class in H1 as (c & -> & Hc).
    apply matches_Star_Class in H2. split; [done | by constructor].
  - intros [Hne H]. destruct H as [|c w Hc H]; [done|].
    exists [c], w. split; [done|].
    split; [by constructor | by apply matches_Star_Class].
Qed.

(** ** The two profile patterns *)

Lemma re_match_profile_shape (prefix : string) (items : list item) (url : string) :
  re_match
    (Cat [Lit "http"; Opt (Chr "s"); Lit "://"; Opt (Lit "www.");
          Lit prefix; Plus (Set_ items); Opt (Chr "/")]) url = true
  <-> profile_url_shape prefix (in_set items) url.
Proof.
  unfold re_match, profile_url_shape. rewrite accepts_matches. cbn [Cat].
  split.
  - intros H.
    apply matches_Seq in H as (w & nl & Hurl & H & Hnl).
    apply matches_Seq in H as (w1 & t1 & -> & H1 & H).
    apply matches_Seq in H as (s & t2 & -> & Hs & H).
    apply matches_Seq in H as (w3 & t3 & -> & H3 & H).
    apply matches_Seq in H as (www & t4 & -> & Hwww & H).
    apply matches_Seq in H as (w5 & t5 & -> & H5 & H).
    apply matches_Seq in H as (user & t6 & -> & Huser & H).
    apply matches_Seq in H as (slash & t7 & -> & Hslash & H).
    apply matches_Eps in H as ->.
    apply matches_Lit in H1 as ->. apply matches_Lit in H3 as ->.
    apply matches_Lit in H5 as ->.
    apply matches_Plus_Class in Huser as [Hne Huser].
    exists (string_of_list_ascii s), (string_of_list_ascii www),
      (string_of_list_ascii user), (string_of_list_ascii slash),
      (string_of_list_ascii nl).
    split.
    { apply chars_inj. rewrite Hurl, !chars_app, !chars_of_list.
      rewrite app_nil_r, <- !app_assoc. done. }
    split.
    { apply matches_Opt in Hs as [->%matches_Chr| ->]; auto. }
    split.
    { apply matches_Opt in Hwww as [->%matches_Lit| ->]; auto. }
    split.
    { intros Heq. apply Hne. apply (f_equal chars) in Heq.
      by rewrite chars_of_list in Heq. }
    split.
    { by rewrite chars_of_list. }
    split.
    { apply matches_Opt in Hslash as [->%matches_Chr| ->]; auto. }
    { apply matches_Opt in Hnl as [->%matches_Chr| ->]; auto. }
  - intros (s & www & user & slash & nl & -> & Hs & Hwww & Hne & Huser & Hslash & Hnl).
    rewrite !chars_app.
    replace (chars "http" ++ chars s ++ chars "://" ++ chars www ++
             chars prefix ++ chars user ++ chars slash ++ chars nl)
      with ((chars "http" ++ chars s ++ chars "://" ++ chars www ++
             chars prefix ++ chars user ++ chars slash ++ []) ++ chars nl)
      by (rewrite app_nil_r, <- !app_assoc; done).
    constructor.
    + constructor; [by apply matches_Lit|].
      constructor.
      { apply matches_Opt. destruct Hs as [-> | ->]; [by right | left].
        by apply matches_Chr. }
      constructor; [by apply matches_Lit|].
      constructor.
      { apply matches_Opt. destruct Hwww as [-> | ->]; [by right | left].
        by apply matches_Lit. }
      constructor; [by apply matches_Lit|].
      constructor.
      { apply matches_Plus_Class. split; [by rewrite chars_nil | done]. }
      constructor; [|constructor].
      apply matches_Opt. destruct Hslash as [-> | ->]; [by right | left].
      by apply matches_Chr.
    + apply matches_Opt. destruct Hnl as [-> | ->]; [by right | left].
      by apply matches_Chr.
Qed.

Lemma github_username_set_char c :
  in_set github_username_set c = github_username_char c.
Proof. destruct c as [[] [] [] [] [] [] [] []]; reflexivity. Qed.

Lemma linkedin_username_set_char c :
  in_set linkedin_username_set c = linkedin_username_char c.
Proof. destruct c as [[] [] [] [] [] [] [] []]; reflexivity. Qed.

Lemma profile_url_shape_ext prefix (p q : ascii -> bool) url :
  (forall c, p c = q c) ->
  profile_url_shape prefix p url <-> profile_url_shape prefix q url.
Proof.
  intros Hpq. unfold profile_url_shape.
  split; intros (s & www & user & slash & nl & H1 & H2 & H3 & H4 & H5 & H6);
    exists s, www, user, slash, nl; repeat (split; [done|]);
    (split; [|done]); eapply Forall_impl; [exact H5 | |exact H5 |];
    simpl; intros c Hc; [by rewrite <- Hpq | by rewrite Hpq].
Qed.

Lemma github_url_pattern_shape url :
  re_match github_url_pattern url = true
  <-> profile_url_shape "github.com/" github_username_char url.
Proof.
  unfold github_url_pattern. rewrite re_match_profile_shape.
  apply profile_url_shape_ext, github_username_set_char.
Qed.

Lemma linkedin_url_pattern_shape url :
  re_match linkedin_url_pattern url = true
  <-> profile_url_shape "linkedin.com/in/" linkedin_username_char url.
Proof.
  unfold linkedin_url_pattern. rewrite re_match_profile_shape.
  apply profile_url_shape_ext, linkedin_username_set_char.
Qed.

Lemma existsb_contains p s : existsb p (chars s) = true <-> contains p s.
Proof. unfold contains. apply existsb_exists. Qed.

Lemma existsb_not_contains p s : existsb p (chars s) = false <-> ~ contains p s.
Proof.
  rewrite <- existsb_contains. destruct (existsb p (chars s)); split; congruence.
Qed.

(* ===================================================================== *)
(** * The field validators: properties *)
(* ===================================================================== *)

(** C3.  [validate_password] returns unchanged every password of at least 8
    characters that contains an uppercase letter, a lowercase letter and a
    digit.  Every other password is refused, and the message names the first
    rule that is broken in the order: length, uppercase, lowercase, digit. *)
Theorem validate_password_first_violation (password : string) :
  (8 <= String.length password -> contains isupper password ->
   contains islower password -> contains isdigit password ->
   validate_password (VStr password) = Return (VStr password))
  /\ (String.length password < 8 ->
      validate_password (VStr password)
      = Raise (ValueError "Password must be at least 8 characters."))
  /\ (8 <= String.length password -> ~ contains isupper password ->
      validate_password (VStr password)
      = Raise (ValueError "Password must contain at least one uppercase letter."))
  /\ (8 <= String.length password -> contains isupper password ->
      ~ contains islower password ->
      validate_password (VStr password)
      = Raise (ValueError "Password must contain at least one lowercase letter."))
  /\ (8 <= String.length password -> contains isupper password ->
      contains islower password -> ~ contains isdigit password ->
      validate_password (VStr password)
      = Raise (ValueError "Password must contain at least one digit.")).
Proof.
  unfold validate_password.
  destruct (Nat.ltb_spec (String.length password) 8) as [Hlen|Hlen].
  { repeat split; intros; (done || lia). }
  destruct (existsb isupper (chars password)) eqn:Hup; simpl;
    [apply existsb_contains in Hup | apply existsb_not_contains in Hup].
  2: { repeat split; intros; (done || lia). }
  destruct (existsb islower (chars password)) eqn:Hlow; simpl;
    [apply existsb_contains in Hlow | apply existsb_not_contains in Hlow].
  2: { repeat split; intros; (done || lia). }
  destruct (existsb isdigit (chars password)) eqn:Hdig; simpl;
    [apply existsb_contains in Hdig | apply existsb_not_contains in Hdig].
  2: { repeat split; intros; (done || lia). }
  repeat split; intros; (done || lia).
Qed.

(** What [validate_github_url] takes: it returns unchanged exactly the
    strings of the form
    http(s)://(www.)github.com/<username>(/), where the username is a
    non-empty run of letters, digits, underscores and hyphens (the pattern of
    the source, whose final [$] lets one closing newline pass), and raises
    its ValueError on every other string.  https://github.com/alice and
    http://github.com/alice/ pass, https://github.com/alice/repo does not. *)
Theorem validate_github_url_exact :
  (forall url,
     validate_github_url (VStr url) = Return (VStr url)
     <-> profile_url_shape "github.com/" github_username_char url)
  /\ (forall url,
     ~ profile_url_shape "github.com/" github_username_char url ->
     validate_github_url (VStr url)
     = Raise (ValueError "Invalid GitHub profile URL. The correct format is: https://github.com/<username>."))
  /\ validate_github_url (VStr "https://github.com/alice")
     = Return (VStr "https://github.com/alice")
  /\ validate_github_url (VStr "http://github.com/alice/")
     = Return (VStr "http://github.com/alice/")
  /\ validate_github_url (VStr "https://github.com/alice/repo")
     = Raise (ValueError "Invalid GitHub profile URL. The correct format is: https://github.com/<username>.").
Proof.
  split; [|split; [|by vm_compute]].
  - intros url. rewrite <- github_url_pattern_shape. unfold validate_github_url.
    destruct (re_match github_url_pattern url); simpl; split; congruence.
  - intros url. rewrite <- github_url_pattern_shape. unfold validate_github_url.
    destruct (re_match github_url_pattern url); simpl; congruence.
Qed.

(** What [validate_linkedin_url] takes: it returns unchanged exactly the
    strings of the form
    http(s)://(www.)linkedin.com/in/<username>(/), where the username is
    a non-empty run of letters, digits, underscores, hyphens and percent
    signs (the pattern of the source, with the [$] of Python), and raises its
    ValueError on every other string.  Every accepted URL contains /in/;
    https://www.linkedin.com/in/john-doe passes and
    https://linkedin.com/john-doe does not. *)
Theorem validate_linkedin_url_exact :
  (forall url,
     validate_linkedin_url (VStr url) = Return (VStr url)
     <-> profile_url_shape "linkedin.com/in/" linkedin_username_char url)
  /\ (forall url,
     ~ profile_url_shape "linkedin.com/in/" linkedin_username_char url ->
     validate_linkedin_url (VStr url)
     = Raise (ValueError "Invalid LinkedIn profile URL. The correct format is: https://www.linkedin.com/in/<username>."))
  /\ (forall url,
     validate_linkedin_url (VStr url) = Return (VStr url) ->
     exists before_in after_in, url = before_in +:+ "/in/" +:+ after_in)
  /\ validate_linkedin_url (VStr "https://www.linkedin.com/in/john-doe")
     = Return (VStr "https://www.linkedin.com/in/john-doe")
  /\ validate_linkedin_url (VStr "https://linkedin.com/john-doe")
     = Raise (ValueError "Invalid LinkedIn profile URL. The correct format is: https://www.linkedin.com/in/<username>.").
Proof.
  assert (Hexact : forall url,
     validate_linkedin_url (VStr url) = Return (VStr url)
     <-> profile_url_shape "linkedin.com/in/" linkedin_username_char url).
  { intros url. rewrite <- linkedin_url_pattern_shape.
    unfold validate_linkedin_url.
    destruct (re_match linkedin_url_pattern url); simpl; split; congruence. }
  split; [exact Hexact|]. split; [|split; [|by vm_compute]].
  - intros url. rewrite <- linkedin_url_pattern_shape.
    unfold validate_linkedin_url.
    destruct (re_match linkedin_url_pattern url); simpl; congruence.
  - intros url (s & www & user & slash & nl & -> & _)%Hexact.
    exists ("http" +:+ s +:+ "://" +:+ www +:+ "linkedin.com"),
      (user +:+ slash +:+ nl).
    apply chars_inj. rewrite !chars_app, <- !app_assoc. reflexivity.
Qed.

(* ===================================================================== *)
(** * pydantic: how outcomes combine *)
(* ===================================================================== *)

Lemma ap_Valid_inv {A B} (f : outcome (A -> B)) (x : outcome A) (b : B) :
  f <*> x = Valid b -> exists g a, f = Valid g /\ x = Valid a /\ b = g a.
Proof. destruct f, x; simpl; intros H; simplify_eq; eauto. Qed.

Lemma ap_is_uncaught {A B} (f : outcome (A -> B)) (x : outcome A) :
  is_uncaught (f <*> x) = is_uncaught f || is_uncaught x.
Proof. destruct f, x; reflexivity. Qed.

Lemma ap_is_valid {A B} (f : outcome (A -> B)) (x : outcome A) :
  is_valid (f <*> x) = is_valid f && is_valid x.
Proof. destruct f, x; reflexivity. Qed.

Lemma ap_errors_of {A B} (f : outcome (A -> B)) (x : outcome A) :
  is_uncaught (f <*> x) = false ->
  errors_of (f <*> x) = errors_of f ++ errors_of x.
Proof. destruct f, x; simpl; intros H; rewrite ?app_nil_r; done. Qed.

(** An outcome is a validation error exactly when nothing got through
    uncaught and it is not valid; a validation error has entries as soon as
    its parts have. *)
Lemma outcome_cases {A} (o : outcome A) :
  is_uncaught o = false -> is_valid o = false -> o = ValidationError (errors_of o).
Proof. destruct o; simpl; congruence. Qed.

Lemma located_Valid {A} name (a : A) : located name (Valid a).
Proof. split; [constructor | done]. Qed.

Lemma located_Uncaught {A} name e : located name (@Uncaught A e).
Proof. split; [constructor | done]. Qed.

Lemma located_field_error {A} name t : located name (@field_error A name t).
Proof. split; [by repeat constructor | done]. Qed.

Lemma located_fmap {A B} name (g : A -> B) (o : outcome A) :
  located name o -> located name (Valid g <*> o).
Proof. destruct o; simpl; done. Qed.

Lemma located_str_schema name v : located name (str_schema name v).
Proof. destruct v; simpl; auto using located_Valid, located_field_error. Qed.

Lemma located_constrained_str n p name v :
  located name (constrained_str n p name v).
Proof.
  destruct v; simpl; auto using located_field_error.
  repeat case_match; auto using located_Valid, located_field_error.
Qed.

Lemma located_optional {A} (schema : string -> pyval -> outcome A) name v :
  (forall v', located name (schema name v')) ->
  located name (optional schema name v).
Proof.
  intros H. destruct v; simpl; auto using located_Valid;
    apply located_fmap, H.
Qed.

Lemma located_before {A} f (schema : string -> pyval -> outcome A) name v :
  (forall v', located name (schema name v')) ->
  located name (before f schema name v).
Proof.
  intros H. unfold before. destruct (f v) as [v'|[msg|]];
    auto using located_field_error, located_Uncaught.
Qed.

Lemma located_required {A} name (schema : string -> pyval -> outcome A) values :
  (forall v', located name (schema name v')) ->
  located name (required name schema values).
Proof.
  intros H. unfold required. destruct (values !! name);
    auto using located_field_error.
Qed.

Lemma located_defaulted {A} name (d : A) schema values :
  (forall v', located name (schema name v')) ->
  located name (defaulted name d schema values).
Proof.
  intros H. unfold defaulted. destruct (values !! name);
    auto using located_Valid.
Qed.

Lemma located_nickname_schema name v : located name (nickname_schema name v).
Proof. apply located_optional. intros. apply located_constrained_str. Qed.

Ltac split_uncaught H :=
  repeat (rewrite ap_is_uncaught in H; apply orb_false_iff in H as [H ?]).

Ltac uncaught_side :=
  rewrite ?ap_is_uncaught; simpl;
  repeat match goal with
         | H : is_uncaught _ = false |- _ => rewrite H; clear H
         end; done.

Section SchemaProperties.
Context `{env : Collaborators}.

Lemma located_email_schema name v : located name (email_schema name v).
Proof.
  destruct v; simpl; auto using located_field_error.
  case_match; auto using located_Valid, located_field_error.
Qed.

Lemma located_role_schema name v : located name (role_schema name v).
Proof.
  unfold role_schema. case_match; auto using located_Valid, located_field_error.
Qed.

Lemma located_uuid_schema name v : located name (uuid_schema name v).
Proof.
  unfold uuid_schema. case_match; auto using located_Valid, located_field_error.
Qed.

Lemma located_bool_schema name v : located name (bool_schema name v).
Proof.
  unfold bool_schema. case_match; auto using located_Valid, located_field_error.
Qed.

(** ** The presence check of UserUpdate *)

Lemma py_any_dict_values_false (values : gmap string pyval) :
  py_any (dict_values values) = false
  <-> forall k v, values !! k = Some v -> truthy v = false.
Proof.
  unfold py_any, dict_values. split.
  - intros H k v Hkv.
    destruct (truthy v) eqn:Hv; [|done].
    assert (existsb truthy (map_to_list values).*2 = true); [|congruence].
    apply existsb_exists. exists v. split; [|done].
    apply list_elem_of_In, list_elem_of_fmap. exists (k, v).
    split; [done|]. by apply elem_of_map_to_list.
  - intros H. destruct (existsb truthy (map_to_list values).*2) eqn:Hex; [|done].
    apply existsb_exists in Hex as (v & Hin & Hv).
    apply list_elem_of_In, list_elem_of_fmap in Hin as ([k v'] & -> & Hin).
    apply elem_of_map_to_list in Hin. simpl in Hv.
    rewrite (H k v' Hin) in Hv. done.
Qed.

Lemma py_any_dict_values_true (values : gmap string pyval) :
  py_any (dict_values values) = true
  <-> exists k v, values !! k = Some v /\ truthy v = true.
Proof.
  unfold py_any, dict_values. rewrite existsb_exists. split.
  - intros (v & Hin & Hv).
    apply list_elem_of_In, list_elem_of_fmap in Hin as ([k v'] & -> & Hin).
    apply elem_of_map_to_list in Hin. eauto.
  - intros (k & v & Hkv & Hv). exists v. split; [|done].
    apply list_elem_of_In, list_elem_of_fmap. exists (k, v).
    split; [done|]. by apply elem_of_map_to_list.
Qed.

(** C10.  The presence check of UserUpdate looks at the truth value of the
    raw values, not at which keys are there: when every value of the input
    is falsy (None, an empty string, False, 0), validation fails with the one
    record-level entry "At least one field must be provided for update",
    whatever keys the input has; and as soon as one value is truthy the
    check lets the input through to the fields. *)
Theorem UserUpdate_presence_is_truthiness (values : gmap string pyval) :
  ((forall k v, values !! k = Some v -> truthy v = false) ->
   UserUpdate_validate values
   = ValidationError
       [{| loc := [];
           type := value_error "At least one field must be provided for update" |}])
  /\ ((exists k v, values !! k = Some v /\ truthy v = true) ->
      UserUpdate_validate values = UserUpdate_fields_validate values).
Proof.
  unfold UserUpdate_validate, check_at_least_one_value. split.
  - intros H%py_any_dict_values_false. by rewrite H.
  - intros H%py_any_dict_values_true. by rewrite H.
Qed.

(** C2, as amended.  When every declared field of UserUpdate is missing from
    the raw input and no other key carries a truthy value, validation fails
    with the one record-level entry and no field-scoped entry; the empty
    input is such an input.  The entry comes from the root validator, which
    runs ahead of the fields. *)
Theorem UserUpdate_all_absent_rejected (values : gmap string pyval) :
  (forall f, In f UserUpdate_fields -> values !! f = None) ->
  (forall k v, values !! k = Some v -> truthy v = false) ->
  UserUpdate_validate values
  = ValidationError
      [{| loc := [];
          type := value_error "At least one field must be provided for update" |}]
  /\ check_at_least_one_value values
     = Raise (ValueError "At least one field must be provided for update")
  /\ Forall (fun e => loc e = []) (errors_of (UserUpdate_validate values)).
Proof.
  intros _ H%py_any_dict_values_false.
  unfold UserUpdate_validate, check_at_least_one_value. rewrite H. simpl.
  repeat split. by repeat constructor.
Qed.

(** ** The role of UserUpdate *)

Lemma UserUpdate_fields_errors (values : gmap string pyval) :
  is_uncaught (UserUpdate_fields_validate values) = false ->
  errors_of (UserUpdate_fields_validate values)
  = errors_of (defaulted "email" None (optional email_schema) values)
    ++ errors_of (defaulted "nickname" None nickname_schema values)
    ++ errors_of (defaulted "first_name" None (optional str_schema) values)
    ++ errors_of (defaulted "last_name" None (optional str_schema) values)
    ++ errors_of (defaulted "bio" None (optional str_schema) values)
    ++ errors_of (defaulted "profile_picture_url" None
                    (before validate_url (optional str_schema)) values)
    ++ errors_of (defaulted "linkedin_profile_url" None
                    (before validate_linkedin_url (optional str_schema)) values)
    ++ errors_of (defaulted "github_profile_url" None
                    (before validate_github_url (optional str_schema)) values)
    ++ errors_of (defaulted "role" None (optional str_schema) values).
Proof.
  unfold UserUpdate_fields_validate. intros H. split_uncaught H.
  repeat (rewrite ap_errors_of by uncaught_side). simpl.
  rewrite <- !app_assoc. done.
Qed.

(** C1, as amended.  The role of a UserUpdate is an optional string and is
    not looked up in UserRole: a role given as a string is taken as it is,
    whatever the string, so validation never reports an entry at role for
    it, a valid outcome carries that very string, and a draft with nothing
    but a non-empty role string is valid. *)
Theorem UserUpdate_role_any_string (values : gmap string pyval) (s : string) :
  values !! "role" = Some (VStr s) ->
  defaulted "role" None (optional str_schema) values = Valid (Some s)
  /\ (forall u, UserUpdate_validate values = Valid u -> u_role u = Some s)
  /\ Forall (fun e => loc e <> ["role"]) (errors_of (UserUpdate_validate values))
  /\ (s <> "" ->
      UserUpdate_validate {["role" := VStr s]}
      = Valid {| u_email := None; u_nickname := None; u_first_name := None;
                 u_last_name := None; u_bio := None;
                 u_profile_picture_url := None;
                 u_linkedin_profile_url := None;
                 u_github_profile_url := None; u_role := Some s |}).
Proof.
  intros Hrole.
  assert (Hfield : defaulted "role" None (optional str_schema) values = Valid (Some s)).
  { unfold defaulted. by rewrite Hrole. }
  split; [done|]. split; [|split].
  - intros u. unfold UserUpdate_validate.
    destruct (check_at_least_one_value values) as [values'|[msg|]] eqn:Hcheck;
      [|done|done].
    assert (values' = values) as ->.
    { unfold check_at_least_one_value in Hcheck. case_match; by simplify_eq. }
    unfold UserUpdate_fields_validate. rewrite Hfield.
    intros (g & a & Hg & Ha & ->)%ap_Valid_inv. simplify_eq.
    repeat match goal with
           | H : _ <*> _ = Valid _ |- _ =>
               apply ap_Valid_inv in H as (? & ? & H & ? & ->)
           end.
    by simplify_eq.
  - unfold UserUpdate_validate.
    destruct (check_at_least_one_value values) as [values'|[msg|]] eqn:Hcheck;
      simpl; [|by repeat constructor|by constructor].
    assert (values' = values) as ->.
    { unfold check_at_least_one_value in Hcheck. case_match; by simplify_eq. }
    destruct (is_uncaught (UserUpdate_fields_validate values)) eqn:Hun.
    { destruct (UserUpdate_fields_validate values); done. }
    rewrite UserUpdate_fields_errors by done. rewrite Hfield. simpl.
    rewrite app_nil_r.
    repeat (apply Forall_app; split);
      (eapply Forall_impl;
       [ apply located_defaulted; intros;
         repeat first [ apply located_nickname_schema
                      | apply located_email_schema
                      | apply located_str_schema
                      | apply located_before; intros
                      | apply located_optional; intros ]
       | simpl; intros e ->; done ]).
  - intros Hs.
    assert (Hany : py_any (dict_values ({["role" := VStr s]} : gmap string pyval)) = true).
    { apply py_any_dict_values_true. exists "role", (VStr s).
      split; [apply lookup_singleton_eq|]. simpl.
      destruct s; [done | reflexivity]. }
    unfold UserUpdate_validate, check_at_least_one_value. rewrite Hany. simpl.
    unfold UserUpdate_fields_validate, defaulted.
    rewrite lookup_singleton_eq.
    rewrite !lookup_singleton_ne by done. reflexivity.
Qed.

(** ** The nickname of UserCreate *)

Lemma nickname_pattern_match (s : string) :
  pattern_match nickname_pattern s = true
  <-> s <> "" /\ Forall (fun c => isword c = true \/ c = "-"%char) (chars s).
Proof.
  unfold pattern_match, nickname_pattern, Set_.
  rewrite accepts_matches, matches_Plus_Class, chars_nil.
  assert (Hc : forall c, in_set [Word; One "-"] c = true
                         <-> isword c = true \/ c = "-"%char).
  { intros c. unfold in_set. cbn [existsb in_item].
    rewrite orb_false_r, orb_true_iff, Ascii.eqb_eq.
    split; intros [?|?]; auto. }
  split; intros [Hne H]; (split; [done|]);
    (eapply Forall_impl; [exact H|]); intros c; apply Hc.
Qed.

Lemma nickname_schema_ok name (s : string) :
  nickname_ok s -> nickname_schema name (VStr s) = Valid (Some s).
Proof.
  intros [Hlen Hchars]. unfold nickname_schema, optional, constrained_str.
  destruct (Nat.ltb_spec (String.length s) 3); [lia|].
  assert (pattern_match nickname_pattern s = true) as ->.
  { apply nickname_pattern_match. split; [|done]. intros ->. simpl in Hlen. lia. }
  done.
Qed.

Lemma nickname_schema_not_ok name (s : string) :
  ~ nickname_ok s ->
  nickname_schema name (VStr s) = field_error name (string_too_short 3)
  \/ nickname_schema name (VStr s) = field_error name string_pattern_mismatch.
Proof.
  intros Hnot. unfold nickname_schema, optional, constrained_str.
  destruct (Nat.ltb_spec (String.length s) 3); [by left|].
  destruct (pattern_match nickname_pattern s) eqn:Hp; [|by right].
  apply nickname_pattern_match in Hp as [_ Hp]. destruct Hnot. by split.
Qed.

Lemma nickname_schema_Valid_inv name v n :
  nickname_schema name v = Valid n ->
  (v = VNone /\ n = None) \/ (exists s, v = VStr s /\ n = Some s /\ nickname_ok s).
Proof.
  intros H. destruct v as [|b|z|s]; simpl in H; try done.
  - left. by simplify_eq.
  - right. exists s.
    unfold nickname_schema, optional, constrained_str in H.
    destruct (Nat.ltb_spec (String.length s) 3) as [|Hlen]; [done|].
    destruct (pattern_match nickname_pattern s) eqn:Hp; [|done].
    simpl in H. simplify_eq. repeat split; [done|].
    by apply nickname_pattern_match in Hp as [_ Hp].
Qed.

Lemma set_or_generate_nickname_falsy (value : pyval) (calls : nat) :
  truthy value = false ->
  set_or_generate_nickname value calls
  = (VStr (generate_nickname calls), S calls).
Proof. intros H. unfold set_or_generate_nickname. by rewrite H. Qed.

Lemma UserCreate_validate_Valid_inv values calls u calls' :
  UserCreate_validate values calls = (Valid u, calls') ->
  required "email" email_schema values = Valid (c_email u)
  /\ UserCreate_nickname values calls = (Valid (c_nickname u), calls')
  /\ defaulted "first_name" None (optional str_schema) values
     = Valid (c_first_name u)
  /\ defaulted "last_name" None (optional str_schema) values
     = Valid (c_last_name u)
  /\ defaulted "bio" None (optional str_schema) values = Valid (c_bio u)
  /\ defaulted "profile_picture_url" None
       (before validate_url (optional str_schema)) values
     = Valid (c_profile_picture_url u)
  /\ defaulted "linkedin_profile_url" None
       (before validate_linkedin_url (optional str_schema)) values
     = Valid (c_linkedin_profile_url u)
  /\ defaulted "github_profile_url" None
       (before validate_github_url (optional str_schema)) values
     = Valid (c_github_profile_url u)
  /\ required "role" role_schema values = Valid (c_role u)
  /\ required "password" (before validate_password str_schema) values
     = Valid (c_password u).
Proof.
  unfold UserCreate_validate.
  destruct (UserCreate_nickname values calls) as [nick c]. intros H.
  injection H as H <-.
  repeat match goal with
         | H : _ <*> _ = Valid _ |- _ =>
             apply ap_Valid_inv in H as (? & ? & H & ? & ->)
         end.
  destruct (required "email" email_schema values) eqn:Hemail; [|done|done].
  simplify_eq. simpl. done.
Qed.

Lemma UserCreate_validate_nickname values calls u calls' :
  UserCreate_validate values calls = (Valid u, calls') ->
  UserCreate_nickname values calls = (Valid (c_nickname u), calls').
Proof. intros H%UserCreate_validate_Valid_inv. apply H. Qed.

(** C4, as amended.  When a UserCreate draft has no nickname (no key, or a
    falsy value like None or the empty string), the generator is called
    once and its result goes through the constraints of the nickname field
    like any supplied value: the field is valid with the generated name
    exactly when the name has at least 3 characters, all of them word
    characters or hyphens, and it is reported at nickname otherwise. *)
Theorem UserCreate_generated_nickname_is_checked
    (values : gmap string pyval) (calls : nat) :
  truthy (default VNone (values !! "nickname")) = false ->
  (UserCreate_nickname values calls).2 = S calls
  /\ (nickname_ok (generate_nickname calls) ->
      (UserCreate_nickname values calls).1
      = Valid (Some (generate_nickname calls)))
  /\ (~ nickname_ok (generate_nickname calls) ->
      (UserCreate_nickname values calls).1
      = field_error "nickname" (string_too_short 3)
      \/ (UserCreate_nickname values calls).1
         = field_error "nickname" string_pattern_mismatch)
  /\ (forall u calls',
      UserCreate_validate values calls = (Valid u, calls') ->
      c_nickname u = Some (generate_nickname calls)
      /\ nickname_ok (generate_nickname calls) /\ calls' = S calls).
Proof.
  intros Hfalsy. unfold UserCreate_nickname.
  rewrite (set_or_generate_nickname_falsy _ _ Hfalsy). simpl.
  split; [done|]. split; [apply nickname_schema_ok|].
  split; [apply nickname_schema_not_ok|].
  intros u calls' H%UserCreate_validate_nickname.
  unfold UserCreate_nickname in H.
  rewrite (set_or_generate_nickname_falsy _ _ Hfalsy) in H.
  apply pair_equal_spec in H as [H <-].
  apply nickname_schema_Valid_inv in H as [[? _]|(s & Hs & -> & Hok)]; [done|].
  by simplify_eq.
Qed.

(** ** UserResponse *)

Lemma UserResponse_validate_local (values1 values2 : gmap string pyval) :
  (forall k, In k UserResponse_fields -> values1 !! k = values2 !! k) ->
  UserResponse_validate values1 = UserResponse_validate values2.
Proof.
  intros H. unfold UserResponse_validate, required, defaulted.
  rewrite (H "email"), (H "nickname"), (H "first_name"), (H "last_name"),
    (H "bio"), (H "profile_picture_url"), (H "linkedin_profile_url"),
    (H "github_profile_url"), (H "role"), (H "id"), (H "is_professional")
    by (simpl; tauto).
  done.
Qed.

(** C5.  UserResponse declares no password field, and what it makes of a
    source does not depend on the source's password: two sources that differ
    only at the key password give the same outcome, the same record when
    they are valid, whether the password is there, changed or removed.  In
    particular two validated UserCreate records that differ only in their
    password, completed with the same identifier and flag, give the same
    UserResponse. *)
Theorem UserResponse_ignores_password :
  ~ In "password" UserResponse_fields
  /\ (forall values1 values2 : gmap string pyval,
      (forall k, k <> "password" -> values1 !! k = values2 !! k) ->
      UserResponse_validate values1 = UserResponse_validate values2)
  /\ (forall (values : gmap string pyval) (v : pyval),
      UserResponse_validate (<["password" := v]> values)
      = UserResponse_validate values)
  /\ (forall values : gmap string pyval,
      UserResponse_validate (delete "password" values)
      = UserResponse_validate values)
  /\ (forall (u : UserCreate) (password' : string) (extra : gmap string pyval),
      UserResponse_validate
        (UserCreate_dump
           {| c_email := c_email u; c_nickname := c_nickname u;
              c_first_name := c_first_name u; c_last_name := c_last_name u;
              c_bio := c_bio u;
              c_profile_picture_url := c_profile_picture_url u;
              c_linkedin_profile_url := c_linkedin_profile_url u;
              c_github_profile_url := c_github_profile_url u;
              c_role := c_role u; c_password := password' |} ∪ extra)
      = UserResponse_validate (UserCreate_dump u ∪ extra)).
Proof.
  assert (Hnot : ~ In "password" UserResponse_fields).
  { simpl. intros H. repeat destruct H as [H|H]; done. }
  assert (Hblind : forall values1 values2 : gmap string pyval,
      (forall k, k <> "password" -> values1 !! k = values2 !! k) ->
      UserResponse_validate values1 = UserResponse_validate values2).
  { intros values1 values2 H. apply UserResponse_validate_local.
    intros k Hk. apply H. intros ->. done. }
  split; [done|]. split; [done|]. split; [|split].
  - intros values v. apply Hblind. intros k Hk. by rewrite lookup_insert_ne.
  - intros values. apply Hblind. intros k Hk. by rewrite lookup_delete_ne.
  - intros u password' extra. apply UserResponse_validate_local.
    intros k Hk. rewrite !lookup_union. f_equal.
    simpl in Hk. repeat (destruct Hk as [<-|Hk]; [reflexivity|]). destruct Hk.
Qed.

(** ** UserCreate: validating a validated record again *)

Lemma optional_str_Valid_inv name v a :
  optional str_schema name v = Valid a -> v = opt_str a.
Proof. destruct v; simpl; intros H; by simplify_eq. Qed.

Lemma optional_str_opt_str name a :
  optional str_schema name (opt_str a) = Valid a.
Proof. by destruct a. Qed.

Lemma validate_url_Return v v' : validate_url v = Return v' -> v' = v.
Proof. destruct v; simpl; intros H; try done; [|case_match]; by simplify_eq. Qed.

Lemma validate_github_url_Return v v' :
  validate_github_url v = Return v' -> v' = v.
Proof. destruct v; simpl; intros H; try done; [|case_match]; by simplify_eq. Qed.

Lemma validate_linkedin_url_Return v v' :
  validate_linkedin_url v = Return v' -> v' = v.
Proof. destruct v; simpl; intros H; try done; [|case_match]; by simplify_eq. Qed.

Lemma validate_password_Return v v' :
  validate_password v = Return v' -> v' = v.
Proof.
  destruct v; simpl; intros H; try done. repeat case_match; by simplify_eq.
Qed.

Lemma defaulted_before_stable f name values a :
  (forall v v', f v = Return v' -> v' = v) ->
  f VNone = Return VNone ->
  defaulted name None (before f (optional str_schema)) values = Valid a ->
  before f (optional str_schema) name (opt_str a) = Valid a.
Proof.
  intros Hf HNone. unfold defaulted, before.
  destruct (values !! name) as [v|].
  - destruct (f v) as [v'|[msg|]] eqn:Hv; [|done|done].
    intros H. apply Hf in Hv as Hv'. subst v'.
    apply optional_str_Valid_inv in H as Hva. subst v. by rewrite Hv.
  - intros H. simplify_eq. simpl. by rewrite HNone.
Qed.

Lemma required_password_stable values p :
  required "password" (before validate_password str_schema) values = Valid p ->
  before validate_password str_schema "password" (VStr p) = Valid p.
Proof.
  unfold required, before. destruct (values !! "password") as [v|]; [|done].
  destruct (validate_password v) as [v'|[msg|]] eqn:Hv; [|done|done].
  apply validate_password_Return in Hv as Hv'. subst v'.
  destruct v as [| | |s]; try done.
  intros H. assert (s = p) as -> by (simpl in H; congruence).
  by rewrite Hv.
Qed.

Lemma set_or_generate_nickname_not_None value calls :
  (set_or_generate_nickname value calls).1 <> VNone.
Proof.
  unfold set_or_generate_nickname. destruct (truthy value) eqn:Hv; [|done].
  simpl. by intros ->.
Qed.

Lemma UserCreate_nickname_Valid_inv values calls n calls' :
  UserCreate_nickname values calls = (Valid n, calls') ->
  exists s, n = Some s /\ nickname_ok s.
Proof.
  unfold UserCreate_nickname.
  pose proof (set_or_generate_nickname_not_None
                (default VNone (values !! "nickname")) calls) as Hne.
  destruct (set_or_generate_nickname _ calls) as [v c]. simpl in Hne.
  intros [H _]%pair_equal_spec.
  apply nickname_schema_Valid_inv in H as [[? _]|(s & _ & -> & Hok)]; [done|].
  eauto.
Qed.

(** C9.  Validating a UserCreate draft and then validating the fields of the
    record it gave, as a new draft, gives the same record again, and the
    second run does not call the nickname generator.  The two collaborators
    that turn a raw value into something else are taken to be stable: a
    normalized address is accepted as it is, and the raw value of a role is
    that role. *)
Theorem UserCreate_validate_idempotent
    (values : gmap string pyval) (calls calls' : nat) (u : UserCreate) :
  (forall r, UserRole_validate (UserRole_raw r) = Some r) ->
  (forall e e', EmailStr_validate e = Some e' -> EmailStr_validate e' = Some e') ->
  UserCreate_validate values calls = (Valid u, calls') ->
  forall n, UserCreate_validate (UserCreate_dump u) n = (Valid u, n).
Proof.
  intros Hrole Hemail H n.
  apply UserCreate_validate_Valid_inv in H
    as (He & Hn & Hf & Hl & Hb & Hp & Hli & Hg & Hr & Hpw).
  apply UserCreate_nickname_Valid_inv in Hn as (s & Hs & Hok).
  apply defaulted_before_stable in Hp;
    [|apply validate_url_Return|done].
  apply defaulted_before_stable in Hli;
    [|apply validate_linkedin_url_Return|done].
  apply defaulted_before_stable in Hg;
    [|apply validate_github_url_Return|done].
  apply required_password_stable in Hpw.
  assert (He' : email_schema "email" (VStr (c_email u)) = Valid (c_email u)).
  { unfold required in He. destruct (values !! "email") as [[| | |e]|]; try done.
    simpl in *. destruct (EmailStr_validate e) as [e'|] eqn:Hee; [|done].
    simplify_eq. by rewrite (Hemail _ _ Hee). }
  assert (Hr' : role_schema "role" (UserRole_raw (c_role u)) = Valid (c_role u)).
  { unfold role_schema. by rewrite Hrole. }
  assert (Hn' : UserCreate_nickname (UserCreate_dump u) n
                = (Valid (c_nickname u), n)).
  { unfold UserCreate_nickname.
    assert (UserCreate_dump u !! "nickname" = Some (opt_str (c_nickname u)))
      as -> by reflexivity.
    rewrite Hs. simpl default. unfold set_or_generate_nickname.
    assert (truthy (VStr s) = true) as ->.
    { destruct Hok as [Hlen _]. destruct s; simpl in *; [lia | done]. }
    by rewrite (nickname_schema_ok _ _ Hok). }
  unfold UserCreate_validate. rewrite Hn'. unfold required, defaulted.
  assert (UserCreate_dump u !! "email" = Some (VStr (c_email u)))
    as -> by reflexivity.
  assert (UserCreate_dump u !! "first_name" = Some (opt_str (c_first_name u)))
    as -> by reflexivity.
  assert (UserCreate_dump u !! "last_name" = Some (opt_str (c_last_name u)))
    as -> by reflexivity.
  assert (UserCreate_dump u !! "bio" = Some (opt_str (c_bio u)))
    as -> by reflexivity.
  assert (UserCreate_dump u !! "profile_picture_url"
          = Some (opt_str (c_profile_picture_url u))) as -> by reflexivity.
  assert (UserCreate_dump u !! "linkedin_profile_url"
          = Some (opt_str (c_linkedin_profile_url u))) as -> by reflexivity.
  assert (UserCreate_dump u !! "github_profile_url"
          = Some (opt_str (c_github_profile_url u))) as -> by reflexivity.
  assert (UserCreate_dump u !! "role" = Some (UserRole_raw (c_role u)))
    as -> by reflexivity.
  assert (UserCreate_dump u !! "password" = Some (VStr (c_password u)))
    as -> by reflexivity.
  rewrite He', Hr', Hp, Hli, Hg, Hpw, !optional_str_opt_str.
  by destruct u.
Qed.

(** ** UserCreate: collecting the entries of all fields *)

Lemma UserCreate_validate_errors (values : gmap string pyval) (calls : nat) :
  is_uncaught (UserCreate_validate values calls).1 = false ->
  errors_of (UserCreate_validate values calls).1
  = errors_of (required "email" email_schema values)
    ++ errors_of (UserCreate_nickname values calls).1
    ++ errors_of (defaulted "first_name" None (optional str_schema) values)
    ++ errors_of (defaulted "last_name" None (optional str_schema) values)
    ++ errors_of (defaulted "bio" None (optional str_schema) values)
    ++ errors_of (defaulted "profile_picture_url" None
                    (before validate_url (optional str_schema)) values)
    ++ errors_of (defaulted "linkedin_profile_url" None
                    (before validate_linkedin_url (optional str_schema)) values)
    ++ errors_of (defaulted "github_profile_url" None
                    (before validate_github_url (optional str_schema)) values)
    ++ errors_of (required "role" role_schema values)
    ++ errors_of (required "password"
                    (before validate_password str_schema) values).
Proof.
  unfold UserCreate_validate.
  destruct (UserCreate_nickname values calls) as [nick c]. cbn [fst].
  intros H. split_uncaught H.
  repeat (rewrite ap_errors_of by uncaught_side). simpl.
  rewrite <- !app_assoc. done.
Qed.

Lemma UserCreate_fields_located (values : gmap string pyval) (calls : nat) :
  located "email" (required "email" email_schema values)
  /\ located "nickname" (UserCreate_nickname values calls).1
  /\ located "first_name" (defaulted "first_name" None (optional str_schema) values)
  /\ located "last_name" (defaulted "last_name" None (optional str_schema) values)
  /\ located "bio" (defaulted "bio" None (optional str_schema) values)
  /\ located "profile_picture_url"
       (defaulted "profile_picture_url" None
          (before validate_url (optional str_schema)) values)
  /\ located "linkedin_profile_url"
       (defaulted "linkedin_profile_url" None
          (before validate_linkedin_url (optional str_schema)) values)
  /\ located "github_profile_url"
       (defaulted "github_profile_url" None
          (before validate_github_url (optional str_schema)) values)
  /\ located "role" (required "role" role_schema values)
  /\ located "password"
       (required "password" (before validate_password str_schema) values).
Proof.
  repeat split;
    try (unfold UserCreate_nickname;
         destruct (set_or_generate_nickname _ calls); cbn [fst]);
    repeat first [ apply located_nickname_schema
                 | apply located_email_schema
                 | apply located_role_schema
                 | apply located_str_schema
                 | apply located_required; intros
                 | apply located_defaulted; intros
                 | apply located_before; intros
                 | apply located_optional; intros ].
Qed.

(** When no exception gets through, a UserCreate draft that is not valid
    gives one ValidationError, and its entries are those of all the fields
    that failed, in the order of the fields ([UserCreate_fields_located]:
    each failed field has an entry, located at the field). *)
Theorem UserCreate_collects_every_field (values : gmap string pyval) (calls : nat) :
  is_uncaught (UserCreate_validate values calls).1 = false ->
  is_valid (UserCreate_validate values calls).1 = false ->
  (UserCreate_validate values calls).1
  = ValidationError
      (errors_of (required "email" email_schema values)
       ++ errors_of (UserCreate_nickname values calls).1
       ++ errors_of (defaulted "first_name" None (optional str_schema) values)
       ++ errors_of (defaulted "last_name" None (optional str_schema) values)
       ++ errors_of (defaulted "bio" None (optional str_schema) values)
       ++ errors_of (defaulted "profile_picture_url" None
                       (before validate_url (optional str_schema)) values)
       ++ errors_of (defaulted "linkedin_profile_url" None
                       (before validate_linkedin_url (optional str_schema)) values)
       ++ errors_of (defaulted "github_profile_url" None
                       (before validate_github_url (optional str_schema)) values)
       ++ errors_of (required "role" role_schema values)
       ++ errors_of (required "password"
                       (before validate_password str_schema) values)).
Proof.
  intros Hun Hval. rewrite <- UserCreate_validate_errors by done.
  by apply outcome_cases.
Qed.

(** C6 at a draft whose password is None.  [validate_password] has no
    guard for None, unlike the three URL validators: [len(None)] raises a
    TypeError, which is no validation failure and leaves the validation
    uncaught.  Such a draft never yields a ValidationError, so the other
    fields that are missing or invalid are not listed. *)
Theorem UserCreate_none_password_uncaught (values : gmap string pyval) (calls : nat) :
  values !! "password" = Some VNone ->
  is_uncaught (UserCreate_validate values calls).1 = true
  /\ forall es, (UserCreate_validate values calls).1 <> ValidationError es.
Proof.
  intros Hpw.
  assert (Hun : is_uncaught (UserCreate_validate values calls).1 = true).
  { unfold UserCreate_validate.
    destruct (UserCreate_nickname values calls) as [nick c]. cbn [fst].
    rewrite ap_is_uncaught. unfold required at 3. rewrite Hpw. simpl.
    apply orb_true_r. }
  split; [done|]. intros es Hes. by rewrite Hes in Hun.
Qed.

End SchemaProperties.

(* ===================================================================== *)
(** * The schemas on concrete drafts *)
(* ===================================================================== *)

Lemma SpecRole_validate_raw (r : SpecRole) :
  SpecRole_validate (VStr (SpecRole_name r)) = Some r.
Proof. by destruct r. Qed.

Lemma SpecEmail_validate_stable (e e' : string) :
  SpecEmail_validate e = Some e' -> SpecEmail_validate e' = Some e'.
Proof.
  intros H. assert (e' = e) as ->; [|done].
  unfold SpecEmail_validate in H. repeat case_match; by simplify_eq.
Qed.

(** The [$] of the URL patterns lets a closing newline pass. *)
Example validate_github_url_closing_newline :
  validate_github_url (VStr ("https://github.com/alice" +:+ String newline ""))
  = Return (VStr ("https://github.com/alice" +:+ String newline "")).
Proof. by vm_compute. Qed.

(** A UserCreate draft with a null password and no email. *)
Example UserCreate_none_password_run :
  UserCreate_validate (env := env_ok)
    (draft [("role", VStr "ADMIN"); ("password", VNone)]) 0
  = (Uncaught TypeError, 1).
Proof. by vm_compute. Qed.

(** The same draft with a password that is a string, too short: both
    fields are reported. *)
Example UserCreate_two_errors_run :
  UserCreate_validate (env := env_ok)
    (draft [("role", VStr "ADMIN"); ("password", VStr "short")]) 0
  = (ValidationError
       [{| loc := ["email"]; type := missing |};
        {| loc := ["password"];
           type := value_error "Password must be at least 8 characters." |}],
     1).
Proof. by vm_compute. Qed.

(** C1: a role that is no member of UserRole is accepted by UserUpdate. *)
Lemma UserUpdate_unrecognized_role_accepted :
  UserRole_validate (Collaborators := env_ok) (VStr "SUPERUSER") = None
  /\ draft [("role", VStr "SUPERUSER")] !! "role" = Some (VStr "SUPERUSER")
  /\ UserUpdate_validate (env := env_ok) (draft [("role", VStr "SUPERUSER")])
     = Valid {| u_email := None; u_nickname := None; u_first_name := None;
                u_last_name := None; u_bio := None;
                u_profile_picture_url := None;
                u_linkedin_profile_url := None;
                u_github_profile_url := None; u_role := Some "SUPERUSER" |}.
Proof. repeat split; by vm_compute. Qed.

Lemma UserUpdate_role_any_string_witness :
  draft [("role", VStr "SUPERUSER"); ("bio", VStr "Hello")] !! "role"
  = Some (VStr "SUPERUSER")
  /\ defaulted "role" None (optional str_schema)
       (draft [("role", VStr "SUPERUSER"); ("bio", VStr "Hello")])
     = Valid (Some "SUPERUSER").
Proof.
  split; [reflexivity|].
  apply (UserUpdate_role_any_string (env := env_ok)
           (draft [("role", VStr "SUPERUSER"); ("bio", VStr "Hello")])
           "SUPERUSER").
  reflexivity.
Defined.

(** C2: with every declared field missing, one undeclared key with a truthy
    value is enough for UserUpdate to accept the input. *)
Lemma UserUpdate_undeclared_key_accepted :
  (forall f, In f UserUpdate_fields -> draft [("foo", VStr "x")] !! f = None)
  /\ UserUpdate_validate (env := env_ok) (draft [("foo", VStr "x")])
     = Valid {| u_email := None; u_nickname := None; u_first_name := None;
                u_last_name := None; u_bio := None;
                u_profile_picture_url := None;
                u_linkedin_profile_url := None;
                u_github_profile_url := None; u_role := None |}.
Proof.
  split; [|by vm_compute].
  intros f Hf. simpl in Hf.
  repeat (destruct Hf as [<-|Hf]; [by vm_compute|]). done.
Qed.

Lemma UserUpdate_all_absent_rejected_witness :
  (forall f, In f UserUpdate_fields -> draft [("foo", VStr "")] !! f = None)
  /\ (forall k v, draft [("foo", VStr "")] !! k = Some v -> truthy v = false)
  /\ UserUpdate_validate (env := env_ok) (draft [("foo", VStr "")])
     = ValidationError
         [{| loc := [];
             type := value_error "At least one field must be provided for update" |}].
Proof.
  assert (H1 : forall f, In f UserUpdate_fields ->
                         draft [("foo", VStr "")] !! f = None).
  { intros f Hf. simpl in Hf.
    repeat (destruct Hf as [<-|Hf]; [reflexivity|]). destruct Hf. }
  assert (H2 : forall k v, draft [("foo", VStr "")] !! k = Some v ->
                           truthy v = false).
  { apply py_any_dict_values_false. reflexivity. }
  split; [exact H1|]. split; [exact H2|].
  apply (UserUpdate_all_absent_rejected (env := env_ok) _ H1 H2).
Defined.

Lemma UserUpdate_presence_is_truthiness_witness :
  (forall k v, draft [("bio", VStr ""); ("email", VNone)] !! k = Some v ->
               truthy v = false)
  /\ UserUpdate_validate (env := env_ok) (draft [("bio", VStr ""); ("email", VNone)])
     = ValidationError
         [{| loc := [];
             type := value_error "At least one field must be provided for update" |}].
Proof.
  assert (H : forall k v, draft [("bio", VStr ""); ("email", VNone)] !! k = Some v ->
                          truthy v = false).
  { apply py_any_dict_values_false. reflexivity. }
  split; [exact H|].
  apply (UserUpdate_presence_is_truthiness (env := env_ok) _). exact H.
Defined.

Lemma validate_password_first_violation_witness :
  8 <= String.length "Secure1234"
  /\ contains isupper "Secure1234" /\ contains islower "Secure1234"
  /\ contains isdigit "Secure1234"
  /\ validate_password (VStr "Secure1234") = Return (VStr "Secure1234").
Proof.
  assert (H1 : 8 <= String.length "Secure1234") by (simpl; lia).
  assert (H2 : contains isupper "Secure1234").
  { exists "S"%char. split; [simpl; tauto | reflexivity]. }
  assert (H3 : contains islower "Secure1234").
  { exists "e"%char. split; [simpl; tauto | reflexivity]. }
  assert (H4 : contains isdigit "Secure1234").
  { exists "1"%char. split; [simpl; tauto | reflexivity]. }
  repeat (split; [assumption|]).
  apply (validate_password_first_violation "Secure1234"); assumption.
Defined.

(** C4: a generated nickname of two characters is refused by the nickname
    field. *)
Lemma UserCreate_short_generated_nickname_rejected :
  draft [("email", VStr "john.doe@example.com"); ("role", VStr "ADMIN");
         ("password", VStr "Secure1234")] !! "nickname" = None
  /\ generate_nickname (Collaborators := env_short) 0 = "ab"
  /\ UserCreate_nickname (env := env_short)
       (draft [("email", VStr "john.doe@example.com"); ("role", VStr "ADMIN");
               ("password", VStr "Secure1234")]) 0
     = (field_error "nickname" (string_too_short 3), 1)
  /\ UserCreate_validate (env := env_short)
       (draft [("email", VStr "john.doe@example.com"); ("role", VStr "ADMIN");
               ("password", VStr "Secure1234")]) 0
     = (ValidationError [{| loc := ["nickname"]; type := string_too_short 3 |}], 1).
Proof. repeat split; by vm_compute. Qed.

Lemma UserCreate_generated_nickname_is_checked_witness :
  truthy (default VNone
            (draft [("email", VStr "john.doe@example.com"); ("role", VStr "ADMIN");
                    ("password", VStr "Secure1234")] !! "nickname")) = false
  /\ (UserCreate_nickname (env := env_ok)
        (draft [("email", VStr "john.doe@example.com"); ("role", VStr "ADMIN");
                ("password", VStr "Secure1234")]) 0).2 = 1.
Proof.
  split; [reflexivity|].
  apply (UserCreate_generated_nickname_is_checked (env := env_ok)
           (draft [("email", VStr "john.doe@example.com"); ("role", VStr "ADMIN");
                   ("password", VStr "Secure1234")]) 0).
  reflexivity.
Defined.

Lemma UserResponse_ignores_password_witness :
  UserResponse_validate (env := env_ok)
    (<["password" := VStr "Secure1234"]>
       (draft [("id", VStr "123e4567-e89b-12d3-a456-426614174000");
               ("email", VStr "john.doe@example.com");
               ("role", VStr "AUTHENTICATED")]))
  = UserResponse_validate (env := env_ok)
      (draft [("id", VStr "123e4567-e89b-12d3-a456-426614174000");
              ("email", VStr "john.doe@example.com");
              ("role", VStr "AUTHENTICATED")]).
Proof.
  apply (proj1 (proj2 (proj2 (UserResponse_ignores_password (env := env_ok))))).
Defined.

Lemma UserCreate_none_password_uncaught_witness :
  draft [("role", VStr "ADMIN"); ("password", VNone)] !! "password" = Some VNone
  /\ is_uncaught
       (UserCreate_validate (env := env_ok)
          (draft [("role", VStr "ADMIN"); ("password", VNone)]) 0).1 = true.
Proof.
  split; [reflexivity|].
  apply (UserCreate_none_password_uncaught (env := env_ok)
           (draft [("role", VStr "ADMIN"); ("password", VNone)]) 0).
  reflexivity.
Defined.

Lemma validate_github_url_exact_witness :
  profile_url_shape "github.com/" github_username_char "https://github.com/alice"
  /\ validate_github_url (VStr "https://github.com/alice")
     = Return (VStr "https://github.com/alice").
Proof.
  split; [|reflexivity].
  apply (proj1 validate_github_url_exact "https://github.com/alice").
  reflexivity.
Defined.

Lemma validate_linkedin_url_exact_witness :
  profile_url_shape "linkedin.com/in/" linkedin_username_char
    "https://www.linkedin.com/in/john-doe"
  /\ validate_linkedin_url (VStr "https://www.linkedin.com/in/john-doe")
     = Return (VStr "https://www.linkedin.com/in/john-doe").
Proof.
  split; [|reflexivity].
  apply (proj1 validate_linkedin_url_exact "https://www.linkedin.com/in/john-doe").
  reflexivity.
Defined.

Lemma UserCreate_validate_idempotent_witness :
  let u := @Build_UserCreate env_ok
             "john.doe@example.com" (Some "clever_panda_42") (Some "John")
             None None None None (Some "https://github.com/johndoe")
             AUTHENTICATED "Secure*1234" in
  UserCreate_validate (env := env_ok)
    (draft [("email", VStr "john.doe@example.com"); ("first_name", VStr "John");
            ("github_profile_url", VStr "https://github.com/johndoe");
            ("role", VStr "AUTHENTICATED"); ("password", VStr "Secure*1234")]) 0
  = (Valid u, 1)
  /\ UserCreate_validate (env := env_ok) (UserCreate_dump (env := env_ok) u) 1
     = (Valid u, 1).
Proof.
  intros u.
  assert (H : UserCreate_validate (env := env_ok)
    (draft [("email", VStr "john.doe@example.com"); ("first_name", VStr "John");
            ("github_profile_url", VStr "https://github.com/johndoe");
            ("role", VStr "AUTHENTICATED"); ("password", VStr "Secure*1234")]) 0
    = (Valid u, 1)) by reflexivity.
  split; [exact H|].
  apply (UserCreate_validate_idempotent (env := env_ok) _ 0 1 u
           SpecRole_validate_raw SpecEmail_validate_stable H 1).
Defined.

(* ===================================================================== *)
(** * Further properties of the field validators *)
(* ===================================================================== *)

Lemma host_start_set c :
  negb (in_set [Space; One "/"; One "$"; One "."; One "?"; One "#"] c) = true
  <-> host_start_char c.
Proof.
  unfold host_start_char, in_set. cbn [existsb in_item In].
  rewrite negb_true_iff, !orb_false_iff, !Ascii.eqb_neq. tauto.
Qed.

Lemma not_space_set c :
  negb (in_set [Space] c) = true <-> isspace c = false.
Proof.
  unfold in_set. cbn [existsb in_item].
  by rewrite orb_false_r, negb_true_iff.
Qed.

Lemma dot_char c : negb (Ascii.eqb newline c) = true <-> c <> newline.
Proof. rewrite negb_true_iff, Ascii.eqb_neq. split; intros H ?; by apply H. Qed.

Lemma url_regex_shape (url : string) :
  re_match url_regex url = true <-> url_shape url.
Proof.
  unfold re_match, url_regex, url_shape, NotSet, Dot.
  rewrite accepts_matches. cbn [Cat]. split.
  - intros H.
    apply matches_Seq in H as (w & nl & Hurl & H & Hnl).
    apply matches_Seq in H as (w1 & t1 & -> & H1 & H).
    apply matches_Seq in H as (s & t2 & -> & Hs & H).
    apply matches_Seq in H as (w3 & t3 & -> & H3 & H).
    apply matches_Seq in H as (wa & t4 & -> & Ha & H).
    apply matches_Seq in H as (wb & t5 & -> & Hb & H).
    apply matches_Seq in H as (rest & t6 & -> & Hrest & H).
    apply matches_Eps in H as ->.
    apply matches_Lit in H1 as ->. apply matches_Lit in H3 as ->.
    apply matches_Class in Ha as (a & -> & Ha).
    apply matches_Class in Hb as (b & -> & Hb).
    apply matches_Star_Class in Hrest.
    exists (string_of_list_ascii s), a, b, (string_of_list_ascii rest),
      (string_of_list_ascii nl).
    split.
    { apply chars_inj. rewrite Hurl, !chars_app. cbn [chars list_ascii_of_string].
      fold (chars (string_of_list_ascii rest)). rewrite !chars_of_list.
      rewrite app_nil_r, <- !app_assoc. done. }
    split.
    { apply matches_Opt in Hs as [->%matches_Chr| ->]; auto. }
    split; [by apply host_start_set|].
    split; [by apply dot_char|].
    split.
    { rewrite chars_of_list. eapply Forall_impl; [exact Hrest|].
      intros c. apply not_space_set. }
    { apply matches_Opt in Hnl as [->%matches_Chr| ->]; auto. }
  - intros (s & a & b & rest & nl & -> & Hs & Ha & Hb & Hrest & Hnl).
    rewrite !chars_app.
    change (chars (String a (String b rest))) with ([a] ++ [b] ++ chars rest).
    apply matches_Seq.
    exists (chars "http" ++ chars s ++ chars "://" ++ [a] ++ [b]
            ++ chars rest ++ []), (chars nl).
    split; [by rewrite app_nil_r, <- !app_assoc|]. split.
    + constructor; [by apply matches_Lit|].
      constructor.
      { apply matches_Opt. destruct Hs as [-> | ->]; [by right | left].
        by apply matches_Chr. }
      constructor; [by apply matches_Lit|].
      constructor; [constructor; by apply host_start_set|].
      constructor; [constructor; by apply dot_char|].
      constructor; [|constructor].
      apply matches_Star_Class. eapply Forall_impl; [exact Hrest|].
      intros c. apply not_space_set.
    + apply matches_Opt. destruct Hnl as [-> | ->]; [by right | left].
      by apply matches_Chr.
Qed.

Lemma url_shape_length (url : string) : url_shape url -> 9 <= String.length url.
Proof.
  intros (s & a & b & rest & nl & -> & _).
  rewrite <- chars_length, !chars_app, !length_app. simpl. lia.
Qed.

(** X1.  [validate_url] returns unchanged exactly the strings made of http or
    https, [://], one character that is no whitespace and none of / $ . ? #,
    one character that is no newline, and then characters that are no
    whitespace (with the closing newline that [$] lets pass); it raises
    "Invalid URL format" on every other string.  An accepted URL has at least
    two characters after [://]. *)
Theorem validate_url_exact :
  (forall url, validate_url (VStr url) = Return (VStr url) <-> url_shape url)
  /\ (forall url, ~ url_shape url ->
      validate_url (VStr url) = Raise (ValueError "Invalid URL format"))
  /\ (forall url, validate_url (VStr url) = Return (VStr url) ->
      9 <= String.length url).
Proof.
  assert (Hexact : forall url,
            validate_url (VStr url) = Return (VStr url) <-> url_shape url).
  { intros url. rewrite <- url_regex_shape. unfold validate_url.
    destruct (re_match url_regex url); simpl; split; congruence. }
  split; [exact Hexact|]. split.
  - intros url. rewrite <- url_regex_shape. unfold validate_url.
    destruct (re_match url_regex url); simpl; congruence.
  - intros url H%Hexact. by apply url_shape_length.
Qed.

Lemma validate_url_Return_shape (url : string) v :
  validate_url (VStr url) = Return v -> url_shape url.
Proof.
  rewrite <- url_regex_shape. unfold validate_url.
  destruct (re_match url_regex url); simpl; congruence.
Qed.

Lemma validate_github_url_Return_shape (url : string) v :
  validate_github_url (VStr url) = Return v ->
  profile_url_shape "github.com/" github_username_char url.
Proof.
  rewrite <- github_url_pattern_shape. unfold validate_github_url.
  destruct (re_match github_url_pattern url); simpl; congruence.
Qed.

Lemma validate_linkedin_url_Return_shape (url : string) v :
  validate_linkedin_url (VStr url) = Return v ->
  profile_url_shape "linkedin.com/in/" linkedin_username_char url.
Proof.
  rewrite <- linkedin_url_pattern_shape. unfold validate_linkedin_url.
  destruct (re_match linkedin_url_pattern url); simpl; congruence.
Qed.

Lemma github_username_char_not_space c :
  github_username_char c = true -> isspace c = false.
Proof. destruct c as [[] [] [] [] [] [] [] []]; vm_compute; congruence. Qed.

Lemma linkedin_username_char_not_space c :
  linkedin_username_char c = true -> isspace c = false.
Proof. destruct c as [[] [] [] [] [] [] [] []]; vm_compute; congruence. Qed.

Lemma profile_url_shape_url_shape prefix (a0 b0 : ascii) (p0 : string)
    (allowed : ascii -> bool) (url : string) :
  prefix = String a0 (String b0 p0) ->
  host_start_char a0 ->
  Forall (fun c => isspace c = false) (chars prefix) ->
  (forall c, allowed c = true -> isspace c = false) ->
  profile_url_shape prefix allowed url -> url_shape url.
Proof.
  intros -> Ha0 Hprefix Hallowed
    (s & www & user & slash & nl & -> & Hs & Hwww & _ & Huser & Hslash & Hnl).
  assert (Huser' : Forall (fun c => isspace c = false) (chars user)).
  { eapply Forall_impl; [exact Huser|]. exact Hallowed. }
  assert (Hslash' : Forall (fun c => isspace c = false) (chars slash)).
  { destruct Hslash as [-> | ->]; repeat constructor. }
  assert (Hw : isspace "w" = false /\ isspace "." = false /\ host_start_char "w").
  { repeat split; try reflexivity. simpl. intros H.
    repeat destruct H as [H|H]; done. }
  destruct Hw as (Hw1 & Hw2 & Hw3).
  assert (Hnl' : forall c, isspace c = false -> c <> newline).
  { intros c Hc ->. vm_compute in Hc. done. }
  cbn [chars list_ascii_of_string] in Hprefix. fold (chars p0) in Hprefix.
  apply Forall_cons in Hprefix as [Ha Hprefix].
  apply Forall_cons in Hprefix as [Hb Hp0].
  destruct Hwww as [-> | ->].
  - exists s, a0, b0, (p0 +:+ user +:+ slash), nl.
    split.
    { apply chars_inj. rewrite !chars_app.
      cbn [chars list_ascii_of_string]. fold (chars p0).
      fold (chars (p0 +:+ user +:+ slash)). rewrite !chars_app.
      simpl. rewrite <- ?app_assoc. simpl. by rewrite <- ?app_assoc. }
    repeat (split; [by auto|]). split; [|done].
    rewrite !chars_app. by repeat (apply Forall_app; split).
  - exists s, "w"%char, "w"%char,
      ("w." +:+ String a0 (String b0 p0) +:+ user +:+ slash), nl.
    split.
    { apply chars_inj. rewrite !chars_app.
      cbn [chars list_ascii_of_string]. fold (chars p0).
      fold (chars (p0 +:+ user +:+ slash)). rewrite !chars_app.
      simpl. rewrite <- ?app_assoc. simpl. by rewrite <- ?app_assoc. }
    repeat (split; [by auto|]). split; [|done].
    cbn [String.append chars list_ascii_of_string].
    fold (chars (p0 +:+ user +:+ slash)). rewrite !chars_app.
    repeat constructor; try done.
    by repeat (apply Forall_app; split).
Qed.

Lemma github_shape_url_shape url :
  profile_url_shape "github.com/" github_username_char url -> url_shape url.
Proof.
  apply (profile_url_shape_url_shape _ "g" "i" "thub.com/"); [done| | |].
  - split; [reflexivity|]. simpl. intros H. repeat destruct H as [H|H]; done.
  - by repeat constructor.
  - apply github_username_char_not_space.
Qed.

Lemma linkedin_shape_url_shape url :
  profile_url_shape "linkedin.com/in/" linkedin_username_char url ->
  url_shape url.
Proof.
  apply (profile_url_shape_url_shape _ "l" "i" "nkedin.com/in/"); [done| | |].
  - split; [reflexivity|]. simpl. intros H. repeat destruct H as [H|H]; done.
  - by repeat constructor.
  - apply linkedin_username_char_not_space.
Qed.

Lemma url_shape_validate_url url :
  url_shape url -> validate_url (VStr url) = Return (VStr url).
Proof.
  intros H%url_regex_shape. unfold validate_url. by rewrite H.
Qed.

(** X2.  A profile URL is a URL: every string that [validate_github_url] or
    [validate_linkedin_url] accepts is accepted by [validate_url] too. *)
Theorem profile_urls_pass_validate_url (url : string) :
  (validate_github_url (VStr url) = Return (VStr url) ->
   validate_url (VStr url) = Return (VStr url))
  /\ (validate_linkedin_url (VStr url) = Return (VStr url) ->
      validate_url (VStr url) = Return (VStr url)).
Proof.
  split; intros H; apply url_shape_validate_url.
  - by apply github_shape_url_shape, (validate_github_url_Return_shape _ _ H).
  - by apply linkedin_shape_url_shape, (validate_linkedin_url_Return_shape _ _ H).
Qed.

Lemma profile_shapes_disjoint url :
  profile_url_shape "github.com/" github_username_char url ->
  profile_url_shape "linkedin.com/in/" linkedin_username_char url -> False.
Proof.
  intros (s1 & w1 & u1 & t1 & n1 & -> & Hs1 & Hw1 & _)
         (s2 & w2 & u2 & t2 & n2 & H & Hs2 & Hw2 & _).
  apply (f_equal chars) in H. rewrite !chars_app in H.
  destruct Hs1 as [-> | ->], Hw1 as [-> | ->], Hs2 as [-> | ->],
    Hw2 as [-> | ->]; simpl in H; discriminate H.
Qed.

(** X3.  No string is both a GitHub and a LinkedIn profile URL: a string
    that one of the two validators accepts makes the other raise its
    ValueError. *)
Theorem profile_validators_exclusive (url : string) :
  (validate_github_url (VStr url) = Return (VStr url) ->
   validate_linkedin_url (VStr url)
   = Raise (ValueError "Invalid LinkedIn profile URL. The correct format is: https://www.linkedin.com/in/<username>."))
  /\ (validate_linkedin_url (VStr url) = Return (VStr url) ->
      validate_github_url (VStr url)
      = Raise (ValueError "Invalid GitHub profile URL. The correct format is: https://github.com/<username>.")).
Proof.
  split; intros H.
  - apply validate_github_url_Return_shape in H.
    unfold validate_linkedin_url.
    destruct (re_match linkedin_url_pattern url) eqn:Hl; [|done].
    apply linkedin_url_pattern_shape in Hl.
    destruct (profile_shapes_disjoint _ H Hl).
  - apply validate_linkedin_url_Return_shape in H.
    unfold validate_github_url.
    destruct (re_match github_url_pattern url) eqn:Hg; [|done].
    apply github_url_pattern_shape in Hg.
    destruct (profile_shapes_disjoint _ Hg H).
Qed.

(** X4.  The nickname field ([min_length=3], [pattern=r'^[\w-]+$']) takes a
    string exactly when it has at least 3 characters, all of them word
    characters or hyphens.  A shorter string is reported as too short,
    whatever its characters; a string of 3 or more characters with another
    character as a pattern mismatch; None is taken as no nickname. *)
Theorem nickname_field_constraints (name s : string) :
  (nickname_schema name (VStr s) = Valid (Some s) <-> nickname_ok s)
  /\ (String.length s < 3 ->
      nickname_schema name (VStr s) = field_error name (string_too_short 3))
  /\ (3 <= String.length s -> ~ nickname_ok s ->
      nickname_schema name (VStr s) = field_error name string_pattern_mismatch)
  /\ nickname_schema name VNone = Valid None.
Proof.
  split; [|split; [|split; [|done]]].
  - split; [|apply nickname_schema_ok].
    intros H. apply nickname_schema_Valid_inv in H
      as [[? _]|(s' & Hs & _ & Hok)]; [done|]. by simplify_eq.
  - intros Hlen. unfold nickname_schema, optional, constrained_str.
    destruct (Nat.ltb_spec (String.length s) 3); [done | lia].
  - intros Hlen Hnot.
    destruct (nickname_schema_not_ok name s Hnot) as [H|H]; [|done].
    unfold nickname_schema, optional, constrained_str in H.
    destruct (Nat.ltb_spec (String.length s) 3); [lia|].
    destruct (negb (pattern_match nickname_pattern s)); done.
Qed.

(* ===================================================================== *)
(** * Further properties of the schemas *)
(* ===================================================================== *)

Lemma supplied_missing values name o :
  supplied values name o -> values !! name = None -> o = None.
Proof. unfold supplied. intros H Hm. rewrite Hm in H. by destruct o. Qed.

Lemma supplied_str values name o s :
  supplied values name o -> values !! name = Some (VStr s) -> o = Some s.
Proof. unfold supplied. intros H Hs. rewrite Hs in H. destruct o; by simplify_eq/=. Qed.

Lemma defaulted_optional_str_supplied name values a :
  defaulted name None (optional str_schema) values = Valid a ->
  supplied values name a.
Proof.
  unfold defaulted, supplied. destruct (values !! name) as [v|]; simpl.
  - apply optional_str_Valid_inv.
  - intros H. by simplify_eq.
Qed.

Lemma defaulted_before_supplied f name values a :
  (forall v v', f v = Return v' -> v' = v) ->
  defaulted name None (before f (optional str_schema)) values = Valid a ->
  supplied values name a /\ forall s, a = Some s -> f (VStr s) = Return (VStr s).
Proof.
  intros Hf. unfold defaulted, supplied, before.
  destruct (values !! name) as [v|]; simpl.
  - destruct (f v) as [v'|[msg|]] eqn:Hv; [|done|done].
    intros H. apply Hf in Hv as Hv'. subst v'.
    apply optional_str_Valid_inv in H. subst v.
    split; [done|]. intros s ->. done.
  - intros H. simplify_eq. done.
Qed.

Lemma defaulted_nickname_supplied values a :
  defaulted "nickname" None nickname_schema values = Valid a ->
  supplied values "nickname" a /\ forall s, a = Some s -> nickname_ok s.
Proof.
  unfold defaulted, supplied. destruct (values !! "nickname") as [v|]; simpl.
  - intros H. apply nickname_schema_Valid_inv in H
      as [[-> ->]|(s & -> & -> & Hok)]; [done|].
    split; [done|]. intros s' Hs. by simplify_eq.
  - intros H. simplify_eq. done.
Qed.

Lemma validate_password_Return_rules (p : string) v :
  validate_password (VStr p) = Return v ->
  8 <= String.length p /\ contains isupper p /\ contains islower p
  /\ contains isdigit p.
Proof.
  unfold validate_password.
  destruct (Nat.ltb_spec (String.length p) 8); [done|].
  destruct (existsb isupper (chars p)) eqn:Hu; [|done].
  destruct (existsb islower (chars p)) eqn:Hl; [|done].
  destruct (existsb isdigit (chars p)) eqn:Hd; [|done].
  intros _. by rewrite <- !existsb_contains.
Qed.

Lemma required_password_inv values p :
  required "password" (before validate_password str_schema) values = Valid p ->
  values !! "password" = Some (VStr p)
  /\ validate_password (VStr p) = Return (VStr p).
Proof.
  unfold required, before. destruct (values !! "password") as [v|]; [|done].
  destruct (validate_password v) as [v'|[msg|]] eqn:Hv; [|done|done].
  apply validate_password_Return in Hv as Hv'. subst v'.
  destruct v as [| | |s]; try done.
  intros H. assert (s = p) as -> by (simpl in H; congruence). done.
Qed.

Lemma required_missing {A} name (schema : string -> pyval -> outcome A) values :
  values !! name = None -> required name schema values = field_error name missing.
Proof. unfold required. by intros ->. Qed.

Section MoreSchemaProperties.
Context `{env : Collaborators}.

(** ** UserCreate *)

(** X5.  A valid UserCreate always has a nickname: the one supplied or the
    generated one, never None, and it satisfies the constraints of the
    field. *)
Theorem UserCreate_valid_has_nickname
    (values : gmap string pyval) (calls calls' : nat) (u : UserCreate) :
  UserCreate_validate values calls = (Valid u, calls') ->
  exists s, c_nickname u = Some s /\ nickname_ok s.
Proof.
  intros H%UserCreate_validate_Valid_inv.
  destruct H as (_ & Hn & _). by apply UserCreate_nickname_Valid_inv in Hn.
Qed.

(** X6.  The password of a valid UserCreate is the string that was supplied,
    unchanged, and it has at least 8 characters, an uppercase letter, a
    lowercase letter and a digit. *)
Theorem UserCreate_valid_password
    (values : gmap string pyval) (calls calls' : nat) (u : UserCreate) :
  UserCreate_validate values calls = (Valid u, calls') ->
  values !! "password" = Some (VStr (c_password u))
  /\ 8 <= String.length (c_password u)
  /\ contains isupper (c_password u) /\ contains islower (c_password u)
  /\ contains isdigit (c_password u).
Proof.
  intros H%UserCreate_validate_Valid_inv.
  destruct H as (_ & _ & _ & _ & _ & _ & _ & _ & _ & Hpw).
  apply required_password_inv in Hpw as [Hraw Hpw].
  split; [done|]. by apply validate_password_Return_rules in Hpw.
Qed.


(** X8.  Validation of a UserCreate does not rewrite the optional text
    fields: first name, last name, bio and the three URLs of a valid record
    are the strings that were supplied, and None where the key is missing or
    holds None. *)
Theorem UserCreate_valid_as_supplied
    (values : gmap string pyval) (calls calls' : nat) (u : UserCreate) :
  UserCreate_validate values calls = (Valid u, calls') ->
  supplied values "first_name" (c_first_name u)
  /\ supplied values "last_name" (c_last_name u)
  /\ supplied values "bio" (c_bio u)
  /\ supplied values "profile_picture_url" (c_profile_picture_url u)
  /\ supplied values "linkedin_profile_url" (c_linkedin_profile_url u)
  /\ supplied values "github_profile_url" (c_github_profile_url u).
Proof.
  intros H%UserCreate_validate_Valid_inv.
  destruct H as (_ & _ & Hf & Hla & Hb & Hp & Hl & Hg & _).
  apply defaulted_before_supplied in Hp as [Hp _]; [|apply validate_url_Return].
  apply defaulted_before_supplied in Hl as [Hl _];
    [|apply validate_linkedin_url_Return].
  apply defaulted_before_supplied in Hg as [Hg _];
    [|apply validate_github_url_Return].
  auto 10 using defaulted_optional_str_supplied.
Qed.

(** X9.  One run of the UserCreate validation calls the nickname generator
    at most once, and only when the draft has no truthy nickname; this holds
    whether the run ends valid, with errors or with an exception.  With a
    truthy nickname a valid record carries the supplied nickname. *)
Theorem UserCreate_generator_calls (values : gmap string pyval) (calls : nat) :
  (UserCreate_validate values calls).2
  = (if truthy (default VNone (values !! "nickname")) then calls else S calls)
  /\ (truthy (default VNone (values !! "nickname")) = true ->
      forall u calls',
        UserCreate_validate values calls = (Valid u, calls') ->
        supplied values "nickname" (c_nickname u)).
Proof.
  split.
  - unfold UserCreate_validate, UserCreate_nickname, set_or_generate_nickname.
    by destruct (truthy (default VNone (values !! "nickname"))).
  - intros Ht u calls' H%UserCreate_validate_nickname.
    unfold UserCreate_nickname, set_or_generate_nickname in H. rewrite Ht in H.
    apply pair_equal_spec in H as [H _].
    apply nickname_schema_Valid_inv in H as [[Hv _]|(s & Hs & Hn & _)].
    + rewrite Hv in Ht. done.
    + unfold supplied. rewrite Hs, Hn. done.
Qed.

(** X10.  UserCreate reads its ten fields and nothing else: two raw inputs
    that agree on them give the same outcome and the same number of
    generator calls, whatever other keys they carry. *)
Theorem UserCreate_ignores_other_keys
    (values1 values2 : gmap string pyval) (calls : nat) :
  (forall k, In k UserCreate_fields -> values1 !! k = values2 !! k) ->
  UserCreate_validate values1 calls = UserCreate_validate values2 calls.
Proof.
  intros H.
  unfold UserCreate_validate, UserCreate_nickname, required, defaulted.
  rewrite (H "email"), (H "nickname"), (H "first_name"), (H "last_name"),
    (H "bio"), (H "profile_picture_url"), (H "linkedin_profile_url"),
    (H "github_profile_url"), (H "role"), (H "password")
    by (simpl; tauto).
  done.
Qed.

(** X11.  email, role and password are required by UserCreate: when the key
    of one of them is missing the draft is not valid, and unless a validator
    raised a TypeError the errors list that field as missing. *)
Theorem UserCreate_required_fields
    (values : gmap string pyval) (calls : nat) (f : string) :
  In f ["email"; "role"; "password"] ->
  values !! f = None ->
  is_valid (UserCreate_validate values calls).1 = false
  /\ (is_uncaught (UserCreate_validate values calls).1 = false ->
      In {| loc := [f]; type := missing |}
         (errors_of (UserCreate_validate values calls).1)).
Proof.
  intros Hf Hmiss. split.
  - unfold UserCreate_validate.
    destruct (UserCreate_nickname values calls) as [nick c]. cbn [fst].
    rewrite !ap_is_valid. simpl in Hf.
    destruct Hf as [<-|[<-|[<-|[]]]];
      rewrite (required_missing _ _ _ Hmiss); simpl;
      rewrite ?andb_false_r; done.
  - intros Hun. rewrite UserCreate_validate_errors by done.
    rewrite !in_app_iff. simpl in Hf.
    destruct Hf as [<-|[<-|[<-|[]]]];
      rewrite (required_missing _ _ _ Hmiss); simpl; tauto.
Qed.

(** ** UserUpdate *)

Lemma UserUpdate_validate_Valid_inv (values : gmap string pyval) (u : UserUpdate) :
  UserUpdate_validate values = Valid u ->
  py_any (dict_values values) = true
  /\ defaulted "email" None (optional email_schema) values = Valid (u_email u)
  /\ defaulted "nickname" None nickname_schema values = Valid (u_nickname u)
  /\ defaulted "first_name" None (optional str_schema) values
     = Valid (u_first_name u)
  /\ defaulted "last_name" None (optional str_schema) values
     = Valid (u_last_name u)
  /\ defaulted "bio" None (optional str_schema) values = Valid (u_bio u)
  /\ defaulted "profile_picture_url" None
       (before validate_url (optional str_schema)) values
     = Valid (u_profile_picture_url u)
  /\ defaulted "linkedin_profile_url" None
       (before validate_linkedin_url (optional str_schema)) values
     = Valid (u_linkedin_profile_url u)
  /\ defaulted "github_profile_url" None
       (before validate_github_url (optional str_schema)) values
     = Valid (u_github_profile_url u)
  /\ defaulted "role" None (optional str_schema) values = Valid (u_role u).
Proof.
  unfold UserUpdate_validate, check_at_least_one_value.
  destruct (py_any (dict_values values)); [|done]. simpl.
  unfold UserUpdate_fields_validate. intros H. split; [done|].
  repeat match goal with
         | H : _ <*> _ = Valid _ |- _ =>
             apply ap_Valid_inv in H as (? & ? & H & ? & ->)
         end.
  destruct (defaulted "email" None (optional email_schema) values) eqn:Hemail;
    [|done|done].
  simplify_eq. simpl. done.
Qed.

Lemma UserUpdate_field_names (name : string) (es : list ErrorDetails) :
  In name UserUpdate_fields ->
  Forall (fun e => loc e = [name]) es ->
  Forall (fun e => exists f, In f UserUpdate_fields /\ loc e = [f]) es.
Proof.
  intros Hin H. eapply Forall_impl; [exact H|].
  intros e He. exists name. by split.
Qed.

(** X12.  The errors of a UserUpdate are never mixed: a ValidationError
    either is the one record-level entry of the presence check, or all its
    entries are located at declared fields. *)
Theorem UserUpdate_errors_not_mixed
    (values : gmap string pyval) (es : list ErrorDetails) :
  UserUpdate_validate values = ValidationError es ->
  es = [{| loc := [];
           type := value_error "At least one field must be provided for update" |}]
  \/ Forall (fun e => exists f, In f UserUpdate_fields /\ loc e = [f]) es.
Proof.
  unfold UserUpdate_validate, check_at_least_one_value.
  destruct (py_any (dict_values values)); simpl.
  2: { intros H. left. by simplify_eq. }
  intros H. right.
  assert (Hun : is_uncaught (UserUpdate_fields_validate values) = false)
    by (by rewrite H).
  assert (es = errors_of (UserUpdate_fields_validate values)) as ->
    by (by rewrite H).
  rewrite UserUpdate_fields_errors by done.
  repeat (apply Forall_app; split);
    (eapply UserUpdate_field_names;
     [ | apply located_defaulted; intros;
         repeat first [ apply located_nickname_schema
                      | apply located_email_schema
                      | apply located_str_schema
                      | apply located_before; intros
                      | apply located_optional; intros ] ];
     simpl; tauto).
Qed.

(** X13.  A valid UserUpdate carries nickname, first name, last name, bio,
    the three URLs and role as they were supplied, and None where the key is
    missing or holds None: nothing is defaulted and no nickname is
    generated.  The email is None when none was supplied. *)
Theorem UserUpdate_valid_as_supplied (values : gmap string pyval) (u : UserUpdate) :
  UserUpdate_validate values = Valid u ->
  supplied values "nickname" (u_nickname u)
  /\ supplied values "first_name" (u_first_name u)
  /\ supplied values "last_name" (u_last_name u)
  /\ supplied values "bio" (u_bio u)
  /\ supplied values "profile_picture_url" (u_profile_picture_url u)
  /\ supplied values "linkedin_profile_url" (u_linkedin_profile_url u)
  /\ supplied values "github_profile_url" (u_github_profile_url u)
  /\ supplied values "role" (u_role u)
  /\ (default VNone (values !! "email") = VNone -> u_email u = None).
Proof.
  intros H%UserUpdate_validate_Valid_inv.
  destruct H as (_ & He & Hn & Hf & Hla & Hb & Hp & Hl & Hg & Hr).
  apply defaulted_nickname_supplied in Hn as [Hn _].
  apply defaulted_before_supplied in Hp as [Hp _]; [|apply validate_url_Return].
  apply defaulted_before_supplied in Hl as [Hl _];
    [|apply validate_linkedin_url_Return].
  apply defaulted_before_supplied in Hg as [Hg _];
    [|apply validate_github_url_Return].
  repeat (split; [by auto using defaulted_optional_str_supplied|]).
  intros Hnone. unfold defaulted in He.
  destruct (values !! "email") as [v|]; simpl in Hnone; [subst v|];
    simpl in He; by simplify_eq.
Qed.

(** X14.  What a valid UserUpdate carries satisfies the constraints of its
    fields: a nickname has at least 3 characters, all word characters or
    hyphens, and the URLs have the form their validators ask for. *)
Theorem UserUpdate_valid_constraints (values : gmap string pyval) (u : UserUpdate) :
  UserUpdate_validate values = Valid u ->
  (forall s, u_nickname u = Some s -> nickname_ok s)
  /\ (forall url, u_profile_picture_url u = Some url -> url_shape url)
  /\ (forall url, u_linkedin_profile_url u = Some url ->
      profile_url_shape "linkedin.com/in/" linkedin_username_char url)
  /\ (forall url, u_github_profile_url u = Some url ->
      profile_url_shape "github.com/" github_username_char url).
Proof.
  intros H%UserUpdate_validate_Valid_inv.
  destruct H as (_ & _ & Hn & _ & _ & _ & Hp & Hl & Hg & _).
  apply defaulted_nickname_supplied in Hn as [_ Hn].
  apply defaulted_before_supplied in Hp as [_ Hp]; [|apply validate_url_Return].
  apply defaulted_before_supplied in Hl as [_ Hl];
    [|apply validate_linkedin_url_Return].
  apply defaulted_before_supplied in Hg as [_ Hg];
    [|apply validate_github_url_Return].
  split; [done|]. repeat split; intros url Hurl.
  - eapply validate_url_Return_shape, Hp, Hurl.
  - eapply validate_linkedin_url_Return_shape, Hl, Hurl.
  - eapply validate_github_url_Return_shape, Hg, Hurl.
Qed.

Lemma url_validators_TypeError (v : pyval) :
  v <> VNone -> (forall s, v <> VStr s) ->
  validate_url v = Raise TypeError
  /\ validate_linkedin_url v = Raise TypeError
  /\ validate_github_url v = Raise TypeError.
Proof. intros Hn Hs. destruct v as [| | |s]; try done. by destruct (Hs s). Qed.

(** X15.  The URL validators take None and strings only.  When one of the
    three URL fields of a UserUpdate holds another value (a number, a bool)
    and the presence check lets the input through, [re.match] raises a
    TypeError on it and the validation ends with an uncaught exception
    instead of a ValidationError. *)
Theorem UserUpdate_url_not_a_string
    (values : gmap string pyval) (f : string) (v : pyval) :
  In f ["profile_picture_url"; "linkedin_profile_url"; "github_profile_url"] ->
  values !! f = Some v ->
  v <> VNone -> (forall s, v <> VStr s) ->
  (exists k v', values !! k = Some v' /\ truthy v' = true) ->
  is_uncaught (UserUpdate_validate values) = true.
Proof.
  intros Hf Hv Hn Hs Hany%py_any_dict_values_true.
  destruct (url_validators_TypeError v Hn Hs) as (Hu & Hl & Hg).
  unfold UserUpdate_validate, check_at_least_one_value. rewrite Hany. simpl.
  unfold UserUpdate_fields_validate. rewrite !ap_is_uncaught.
  simpl in Hf. destruct Hf as [<-|[<-|[<-|[]]]];
    unfold defaulted at 6 7 8; rewrite Hv; unfold before;
    rewrite ?Hu, ?Hl, ?Hg; simpl; rewrite ?orb_true_r; done.
Qed.

Lemma UserUpdate_validate_passes (values : gmap string pyval) :
  py_any (dict_values values) = true ->
  UserUpdate_validate values = UserUpdate_fields_validate values.
Proof.
  unfold UserUpdate_validate, check_at_least_one_value. by intros ->.
Qed.

Lemma UserUpdate_validate_empty (values : gmap string pyval) :
  py_any (dict_values values) = false ->
  UserUpdate_validate values
  = ValidationError
      [{| loc := [];
          type := value_error "At least one field must be provided for update" |}].
Proof.
  unfold UserUpdate_validate, check_at_least_one_value. by intros ->.
Qed.

(** X16.  Validating the fields of a valid UserUpdate again gives the same
    record as long as one of them is a non-empty string; a valid update
    whose fields are all None or empty is rejected as an empty update when
    it is validated again.  The address check is taken to accept a
    normalized address as it is. *)
Theorem UserUpdate_validate_again (values : gmap string pyval) (u : UserUpdate) :
  (forall e e', EmailStr_validate e = Some e' -> EmailStr_validate e' = Some e') ->
  UserUpdate_validate values = Valid u ->
  (py_any (dict_values (UserUpdate_dump u)) = true ->
   UserUpdate_validate (UserUpdate_dump u) = Valid u)
  /\ (py_any (dict_values (UserUpdate_dump u)) = false ->
      UserUpdate_validate (UserUpdate_dump u)
      = ValidationError
          [{| loc := [];
              type := value_error "At least one field must be provided for update" |}]).
Proof.
  intros Hemail H. split; intros Hany;
    [rewrite (UserUpdate_validate_passes _ Hany); clear Hany
    |exact (UserUpdate_validate_empty _ Hany)].
  apply UserUpdate_validate_Valid_inv in H
    as (_ & He & Hn & _ & _ & _ & Hp & Hl & Hg & _).
  apply defaulted_before_stable in Hp; [|apply validate_url_Return|done].
  apply defaulted_before_stable in Hl; [|apply validate_linkedin_url_Return|done].
  apply defaulted_before_stable in Hg; [|apply validate_github_url_Return|done].
  assert (He' : optional email_schema "email" (opt_str (u_email u))
                = Valid (u_email u)).
  { unfold defaulted in He. destruct (u_email u) as [e'|]; [|done].
    destruct (values !! "email") as [[| | |e]|]; simpl in He; try done.
    destruct (EmailStr_validate e) as [e''|] eqn:Hee; simpl in He; [|done].
    assert (e'' = e') as -> by congruence.
    simpl. by rewrite (Hemail _ _ Hee). }
  assert (Hn' : nickname_schema "nickname" (opt_str (u_nickname u))
                = Valid (u_nickname u)).
  { apply defaulted_nickname_supplied in Hn as [_ Hn].
    destruct (u_nickname u) as [s|]; [|done]. by apply nickname_schema_ok, Hn. }
  unfold UserUpdate_fields_validate, defaulted.
  assert (UserUpdate_dump u !! "email" = Some (opt_str (u_email u)))
    as -> by reflexivity.
  assert (UserUpdate_dump u !! "nickname" = Some (opt_str (u_nickname u)))
    as -> by reflexivity.
  assert (UserUpdate_dump u !! "first_name" = Some (opt_str (u_first_name u)))
    as -> by reflexivity.
  assert (UserUpdate_dump u !! "last_name" = Some (opt_str (u_last_name u)))
    as -> by reflexivity.
  assert (UserUpdate_dump u !! "bio" = Some (opt_str (u_bio u)))
    as -> by reflexivity.
  assert (UserUpdate_dump u !! "profile_picture_url"
          = Some (opt_str (u_profile_picture_url u))) as -> by reflexivity.
  assert (UserUpdate_dump u !! "linkedin_profile_url"
          = Some (opt_str (u_linkedin_profile_url u))) as -> by reflexivity.
  assert (UserUpdate_dump u !! "github_profile_url"
          = Some (opt_str (u_github_profile_url u))) as -> by reflexivity.
  assert (UserUpdate_dump u !! "role" = Some (opt_str (u_role u)))
    as -> by reflexivity.
  rewrite He', Hn', Hp, Hl, Hg, !optional_str_opt_str.
  by destruct u.
Qed.

End MoreSchemaProperties.

Section ResponseProperties.
Context `{env : Collaborators}.

Lemma UserResponse_validate_Valid_inv (values : gmap string pyval) (r : UserResponse) :
  UserResponse_validate values = Valid r ->
  required "email" email_schema values = Valid (r_email r)
  /\ defaulted "nickname" None nickname_schema values = Valid (r_nickname r)
  /\ required "role" role_schema values = Valid (r_role r)
  /\ required "id" uuid_schema values = Valid (r_id r)
  /\ defaulted "is_professional" (Some false) (optional bool_schema) values
     = Valid (r_is_professional r).
Proof.
  unfold UserResponse_validate. intros H.
  repeat match goal with
         | H : _ <*> _ = Valid _ |- _ =>
             apply ap_Valid_inv in H as (? & ? & H & ? & ->)
         end.
  destruct (required "email" email_schema values) eqn:Hemail; [|done|done].
  simplify_eq. simpl. done.
Qed.

Lemma required_Valid_is_Some {A} name (schema : string -> pyval -> outcome A)
    values a :
  required name schema values = Valid a -> is_Some (values !! name).
Proof. unfold required. destruct (values !! name); [eauto | done]. Qed.

(** X17.  A valid UserResponse comes from a source that has the keys email,
    role and id.  Its is_professional is False when the source has no such
    key, and None (not False) when the source holds None there; its
    nickname is the one of the source, None when there is none: no nickname
    is generated for a response. *)
Theorem UserResponse_valid_defaults (values : gmap string pyval) (r : UserResponse) :
  UserResponse_validate values = Valid r ->
  is_Some (values !! "email") /\ is_Some (values !! "role")
  /\ is_Some (values !! "id")
  /\ (values !! "is_professional" = None -> r_is_professional r = Some false)
  /\ (values !! "is_professional" = Some VNone -> r_is_professional r = None)
  /\ supplied values "nickname" (r_nickname r).
Proof.
  intros H%UserResponse_validate_Valid_inv.
  destruct H as (He & Hn & Hr & Hi & Hp).
  apply required_Valid_is_Some in He, Hr, Hi.
  apply defaulted_nickname_supplied in Hn as [Hn _].
  repeat (split; [done|]). unfold defaulted in Hp.
  split; [|split; [|done]]; intros Hv; rewrite Hv in Hp; simpl in Hp;
    by simplify_eq.
Qed.

End ResponseProperties.

(** ** LoginRequest and ErrorResponse *)

(** X18.  LoginRequest takes any two strings: it is valid exactly when email
    and password are both there as strings, which it keeps as they are; it
    applies neither the address check nor the password rules.  It never
    ends with an exception, and when both keys are missing both are
    reported. *)
Theorem LoginRequest_any_strings (values : gmap string pyval) :
  (forall l,
     LoginRequest_validate values = Valid l
     <-> values !! "email" = Some (VStr (l_email l))
         /\ values !! "password" = Some (VStr (l_password l)))
  /\ is_uncaught (LoginRequest_validate values) = false
  /\ (values !! "email" = None -> values !! "password" = None ->
      LoginRequest_validate values
      = ValidationError [{| loc := ["email"]; type := missing |};
                         {| loc := ["password"]; type := missing |}]).
Proof.
  unfold LoginRequest_validate, required.
  destruct (values !! "email") as [[| | |e]|],
    (values !! "password") as [[| | |p]|]; simpl;
    (split; [intros [e' p']; simpl; split; [intros H|intros [H1 H2]];
             by simplify_eq
            |split; [done|intros; by simplify_eq]]).
Qed.

(** ErrorResponse is valid exactly when error is there as a string and
    details is missing, None or a string; a missing details comes out as
    None. *)
Theorem ErrorResponse_shape (values : gmap string pyval) (e : ErrorResponse) :
  ErrorResponse_validate values = Valid e
  <-> values !! "error" = Some (VStr (e_error e))
      /\ supplied values "details" (e_details e).
Proof.
  unfold ErrorResponse_validate, required, defaulted, supplied.
  destruct e as [err det]. simpl.
  destruct (values !! "error") as [[| | |s]|],
    (values !! "details") as [[| | |d]|], det as [d'|]; simpl;
    split; try (intros H; by simplify_eq); try (intros [H1 H2]; by simplify_eq).
Qed.

(* ===================================================================== *)
(** * The further properties on concrete inputs *)
(* ===================================================================== *)

Lemma validate_url_exact_witness :
  url_shape "https://example.com/profiles/john.jpg"
  /\ validate_url (VStr "https://example.com/profiles/john.jpg")
     = Return (VStr "https://example.com/profiles/john.jpg").
Proof.
  split; [|reflexivity].
  apply (proj1 validate_url_exact "https://example.com/profiles/john.jpg").
  reflexivity.
Defined.

Lemma profile_urls_pass_validate_url_witness :
  validate_github_url (VStr "https://github.com/johndoe")
  = Return (VStr "https://github.com/johndoe")
  /\ validate_url (VStr "https://github.com/johndoe")
     = Return (VStr "https://github.com/johndoe").
Proof.
  split; [reflexivity|].
  apply (proj1 (profile_urls_pass_validate_url "https://github.com/johndoe")).
  reflexivity.
Defined.

Lemma profile_validators_exclusive_witness :
  validate_github_url (VStr "https://github.com/johndoe")
  = Return (VStr "https://github.com/johndoe")
  /\ validate_linkedin_url (VStr "https://github.com/johndoe")
     = Raise (ValueError "Invalid LinkedIn profile URL. The correct format is: https://www.linkedin.com/in/<username>.").
Proof.
  split; [reflexivity|].
  apply (proj1 (profile_validators_exclusive "https://github.com/johndoe")).
  reflexivity.
Defined.

Lemma nickname_field_constraints_witness :
  String.length "jd" < 3
  /\ nickname_schema "nickname" (VStr "jd")
     = field_error "nickname" (string_too_short 3).
Proof.
  assert (H : String.length "jd" < 3) by (simpl; lia).
  split; [exact H|].
  apply (proj1 (proj2 (nickname_field_constraints "nickname" "jd"))). exact H.
Defined.

Lemma sample_create_valid :
  UserCreate_validate (env := env_ok) sample_create 0
  = (Valid sample_create_record, 1).
Proof. reflexivity. Qed.

Lemma sample_update_valid :
  UserUpdate_validate (env := env_ok) sample_update = Valid sample_update_record.
Proof. reflexivity. Qed.

Lemma sample_response_valid :
  UserResponse_validate (env := env_ok) sample_response
  = Valid sample_response_record.
Proof. reflexivity. Qed.

Lemma UserCreate_valid_has_nickname_witness :
  exists s, c_nickname sample_create_record = Some s /\ nickname_ok s.
Proof.
  apply (UserCreate_valid_has_nickname (env := env_ok) sample_create 0 1
           sample_create_record sample_create_valid).
Defined.

Lemma UserCreate_valid_password_witness :
  sample_create !! "password" = Some (VStr (c_password sample_create_record))
  /\ 8 <= String.length (c_password sample_create_record)
  /\ contains isupper (c_password sample_create_record)
  /\ contains islower (c_password sample_create_record)
  /\ contains isdigit (c_password sample_create_record).
Proof.
  apply (UserCreate_valid_password (env := env_ok) sample_create 0 1
           sample_create_record sample_create_valid).
Defined.


Lemma UserCreate_valid_as_supplied_witness :
  supplied sample_create "first_name" (c_first_name sample_create_record).
Proof.
  apply (UserCreate_valid_as_supplied (env := env_ok) sample_create 0 1
           sample_create_record sample_create_valid).
Defined.

Lemma UserCreate_generator_calls_witness :
  (UserCreate_validate (env := env_ok) sample_create 0).2 = 1
  /\ (UserCreate_validate (env := env_ok)
        (<["nickname" := VStr "john_doe123"]> sample_create) 0).2 = 0.
Proof.
  split.
  - etrans; [apply (proj1 (UserCreate_generator_calls (env := env_ok)
                             sample_create 0)) | reflexivity].
  - etrans; [apply (proj1 (UserCreate_generator_calls (env := env_ok)
                             (<["nickname" := VStr "john_doe123"]> sample_create)
                             0)) | reflexivity].
Defined.

Lemma UserCreate_ignores_other_keys_witness :
  UserCreate_validate (env := env_ok)
    (<["is_admin" := VBool true]> sample_create) 0
  = UserCreate_validate (env := env_ok) sample_create 0.
Proof.
  apply (UserCreate_ignores_other_keys (env := env_ok)).
  intros k Hk. simpl in Hk.
  repeat (destruct Hk as [<-|Hk]; [reflexivity|]). destruct Hk.
Defined.

Lemma UserCreate_required_fields_witness :
  draft [("role", VStr "ADMIN"); ("password", VStr "Secure*1234")] !! "email"
  = None
  /\ is_valid
       (UserCreate_validate (env := env_ok)
          (draft [("role", VStr "ADMIN"); ("password", VStr "Secure*1234")]) 0).1
     = false.
Proof.
  split; [reflexivity|].
  apply (UserCreate_required_fields (env := env_ok)
           (draft [("role", VStr "ADMIN"); ("password", VStr "Secure*1234")])
           0 "email").
  - simpl. tauto.
  - reflexivity.
Defined.

Lemma UserUpdate_errors_not_mixed_witness :
  [{| loc := ["nickname"]; type := string_too_short 3 |};
   {| loc := ["github_profile_url"];
      type := value_error "Invalid GitHub profile URL. The correct format is: https://github.com/<username>." |}]
  = [{| loc := [];
        type := value_error "At least one field must be provided for update" |}]
  \/ Forall (fun e => exists f, In f UserUpdate_fields /\ loc e = [f])
       [{| loc := ["nickname"]; type := string_too_short 3 |};
        {| loc := ["github_profile_url"];
           type := value_error "Invalid GitHub profile URL. The correct format is: https://github.com/<username>." |}].
Proof.
  apply (UserUpdate_errors_not_mixed (env := env_ok)
           (draft [("nickname", VStr "jd");
                   ("github_profile_url", VStr "https://github.com/a/b")])).
  reflexivity.
Defined.

Lemma UserUpdate_valid_as_supplied_witness :
  supplied sample_update "nickname" (u_nickname sample_update_record)
  /\ supplied sample_update "first_name" (u_first_name sample_update_record).
Proof.
  pose proof (UserUpdate_valid_as_supplied (env := env_ok) sample_update
                sample_update_record sample_update_valid) as H.
  split; apply H.
Defined.

Lemma UserUpdate_valid_constraints_witness :
  u_nickname sample_update_record = Some "john_doe123"
  /\ nickname_ok "john_doe123".
Proof.
  split; [reflexivity|].
  apply (UserUpdate_valid_constraints (env := env_ok) sample_update
           sample_update_record sample_update_valid).
  reflexivity.
Defined.

Lemma UserUpdate_url_not_a_string_witness :
  draft [("github_profile_url", VInt 5)] !! "github_profile_url" = Some (VInt 5)
  /\ is_uncaught
       (UserUpdate_validate (env := env_ok)
          (draft [("github_profile_url", VInt 5)])) = true.
Proof.
  split; [reflexivity|].
  apply (UserUpdate_url_not_a_string (env := env_ok)
           (draft [("github_profile_url", VInt 5)]) "github_profile_url" (VInt 5)).
  - simpl. tauto.
  - reflexivity.
  - discriminate.
  - discriminate.
  - exists "github_profile_url", (VInt 5). split; reflexivity.
Defined.

Lemma UserUpdate_validate_again_witness :
  UserUpdate_validate (env := env_ok) (UserUpdate_dump sample_update_record)
  = Valid sample_update_record.
Proof.
  apply (UserUpdate_validate_again (env := env_ok) sample_update
           sample_update_record SpecEmail_validate_stable sample_update_valid).
  reflexivity.
Defined.

Lemma UserResponse_valid_defaults_witness :
  sample_response !! "is_professional" = None
  /\ r_is_professional sample_response_record = Some false.
Proof.
  split; [reflexivity|].
  apply (UserResponse_valid_defaults (env := env_ok) sample_response
           sample_response_record sample_response_valid).
  reflexivity.
Defined.

Lemma LoginRequest_any_strings_witness :
  LoginRequest_validate
    (draft [("email", VStr "not an address"); ("password", VStr "weak")])
  = Valid {| l_email := "not an address"; l_password := "weak" |}.
Proof.
  apply (proj1 (LoginRequest_any_strings
                  (draft [("email", VStr "not an address");
                          ("password", VStr "weak")]))).
  split; reflexivity.
Defined.

Lemma ErrorResponse_shape_witness :
  ErrorResponse_validate (draft [("error", VStr "Not Found")])
  = Valid {| e_error := "Not Found"; e_details := None |}.
Proof.
  apply (ErrorResponse_shape (draft [("error", VStr "Not Found")])).
  split; reflexivity.
Defined.

(* ===================================================================== *)
(** * The closing newline of the profile URL patterns *)
(* ===================================================================== *)

Lemma profile_url_strict_shape prefix allowed url (nl : string) :
  nl = "" \/ nl = String newline "" ->
  profile_url_strict prefix allowed url ->
  profile_url_shape prefix allowed (url +:+ nl).
Proof.
  intros Hnl (s & www & user & slash & -> & Hs & Hwww & Hne & Huser & Hslash).
  exists s, www, user, slash, nl. split; [|done].
  apply chars_inj. rewrite !chars_app, <- !app_assoc. done.
Qed.

Lemma string_app_empty_r (s : string) : s +:+ "" = s.
Proof. apply chars_inj. by rewrite chars_app, app_nil_r. Qed.

Lemma profile_url_strict_no_newline prefix allowed url :
  allowed newline = false ->
  ~ profile_url_strict prefix allowed (url +:+ String newline "").
Proof.
  intros Hnl (s & www & user & slash & Heq & _ & _ & Hne & Huser & Hslash).
  apply (f_equal (fun x => last (chars x))) in Heq.
  rewrite !chars_app in Heq.
  change (chars (String newline "")) with [newline] in Heq.
  rewrite last_snoc in Heq.
  rewrite !app_assoc in Heq.
  destruct Hslash as [-> | ->].
  - change (chars "") with (@nil ascii) in Heq. rewrite app_nil_r in Heq.
    symmetry in Heq. apply last_app_Some in Heq as [Heq|[Heq _]].
    + apply last_Some_elem_of in Heq.
      rewrite Forall_forall in Huser. apply Huser in Heq. congruence.
    + apply last_None, chars_nil in Heq. done.
  - change (chars "/") with ["/"%char] in Heq. rewrite last_snoc in Heq.
    discriminate Heq.
Qed.

(** C7 at a URL followed by a newline.  The pattern of [validate_github_url]
    ends with [$], which in Python also holds just before a newline that
    closes the string.  So for every URL of the form the pattern describes,
    http(s)://(www.)github.com/<username>(/), the validator accepts the URL
    and accepts it again with a newline appended, although the longer string
    is not of that form. *)
Theorem validate_github_url_closing_newline_accepted (url : string) :
  profile_url_strict "github.com/" github_username_char url ->
  validate_github_url (VStr url) = Return (VStr url)
  /\ validate_github_url (VStr (url +:+ String newline ""))
     = Return (VStr (url +:+ String newline ""))
  /\ ~ profile_url_strict "github.com/" github_username_char
         (url +:+ String newline "").
Proof.
  intros H. split; [|split].
  - apply (profile_url_strict_shape _ _ _ "") in H; [|by left].
    rewrite string_app_empty_r in H. apply github_url_pattern_shape in H.
    unfold validate_github_url. by rewrite H.
  - apply (profile_url_strict_shape _ _ _ (String newline "")) in H; [|by right].
    apply github_url_pattern_shape in H.
    unfold validate_github_url. by rewrite H.
  - by apply profile_url_strict_no_newline.
Qed.

(** C8 at a URL followed by a newline.  The pattern of
    [validate_linkedin_url] ends with the same [$]: for every URL of the form
    http(s)://(www.)linkedin.com/in/<username>(/), the validator accepts the
    URL and accepts it again with a newline appended, although the longer
    string is not of that form. *)
Theorem validate_linkedin_url_closing_newline_accepted (url : string) :
  profile_url_strict "linkedin.com/in/" linkedin_username_char url ->
  validate_linkedin_url (VStr url) = Return (VStr url)
  /\ validate_linkedin_url (VStr (url +:+ String newline ""))
     = Return (VStr (url +:+ String newline ""))
  /\ ~ profile_url_strict "linkedin.com/in/" linkedin_username_char
         (url +:+ String newline "").
Proof.
  intros H. split; [|split].
  - apply (profile_url_strict_shape _ _ _ "") in H; [|by left].
    rewrite string_app_empty_r in H. apply linkedin_url_pattern_shape in H.
    unfold validate_linkedin_url. by rewrite H.
  - apply (profile_url_strict_shape _ _ _ (String newline "")) in H; [|by right].
    apply linkedin_url_pattern_shape in H.
    unfold validate_linkedin_url. by rewrite H.
  - by apply profile_url_strict_no_newline.
Qed.

Lemma validate_github_url_closing_newline_accepted_witness :
  profile_url_strict "github.com/" github_username_char "https://github.com/alice"
  /\ validate_github_url
       (VStr ("https://github.com/alice" +:+ String newline ""))
     = Return (VStr ("https://github.com/alice" +:+ String newline "")).
Proof.
  assert (H : profile_url_strict "github.com/" github_username_char
                "https://github.com/alice").
  { exists "s", "", "alice", "". split; [reflexivity|].
    split; [by right|]. split; [by left|]. split; [discriminate|].
    split; [|by left]. repeat constructor. }
  split; [exact H|].
  apply (validate_github_url_closing_newline_accepted
           "https://github.com/alice" H).
Defined.

Lemma validate_linkedin_url_closing_newline_accepted_witness :
  profile_url_strict "linkedin.com/in/" linkedin_username_char
    "https://www.linkedin.com/in/john-doe"
  /\ validate_linkedin_url
       (VStr ("https://www.linkedin.com/in/john-doe" +:+ String newline ""))
     = Return (VStr ("https://www.linkedin.com/in/john-doe"
                     +:+ String newline "")).
Proof.
  assert (H : profile_url_strict "linkedin.com/in/" linkedin_username_char
                "https://www.linkedin.com/in/john-doe").
  { exists "s", "www.", "john-doe", "". split; [reflexivity|].
    split; [by right|]. split; [by right|]. split; [discriminate|].
    split; [|by left]. repeat constructor. }
  split; [exact H|].
  apply (validate_linkedin_url_closing_newline_accepted
           "https://www.linkedin.com/in/john-doe" H).
Defined.
